(** * MDoNER DPR assessment: scoring and risk pipeline

    A shallow embedding of [dpr_analyzer.py] and [risk_predictor.py].

    Modelling conventions.
    - Python [int] is [Z]; Python [float] is an exact rational [Q] (binary64
      rounding of the intermediate results is not modelled); [round(x, 1)] is
      rounding to the nearest tenth, ties to the even tenth.
    - Python [str] is [string]; [str.lower] maps the ASCII capitals only.
    - A [dict] whose keys are read with [.get] or may be missing is a record of
      optional fields; a [dict] that is iterated is an association list in
      insertion order.
    - [raise]/[try ... except Exception] is the [outcome] type; the wall clock
      and the random generators are read from an explicit [world]. *)

From Stdlib Require Import ZArith QArith Qround Qminmax Qabs Lqa Lia.
From Stdlib Require Import List String Ascii Bool Sorted Permutation.
Import ListNotations.

Local Open Scope Z_scope.

(* ================================================================== *)
(** ** Python primitives *)
(* ================================================================== *)

Module Py.

(** Exceptions that the modelled code can raise; all derive from
    [Exception], so every one is caught by [except Exception]. *)
Inductive exn : Type :=
| NameError (name : string)
| KeyError (key : string)
| AttributeError (attr : string).

Inductive outcome (A : Type) : Type :=
| Returns (a : A)
| Raises (e : exn).
Arguments Returns {A} a.
Arguments Raises {A} e.

Definition obind {A B} (c : outcome A) (k : A -> outcome B) : outcome B :=
  match c with
  | Returns a => k a
  | Raises e => Raises e
  end.

(** [d[key]] on an optional field. *)
Definition getitem {A} (key : string) (field : option A) : outcome A :=
  match field with
  | Some a => Returns a
  | None => Raises (KeyError key)
  end.

(** [d.get(key, default)] on an optional field. *)
Definition get {A} (field : option A) (default : A) : A :=
  match field with
  | Some a => a
  | None => default
  end.

(** The part of the outside world the pipeline reads: the raw draws the
    random generators will produce next and the readings the wall clock will
    give next, both consumed in order. *)
Record world : Type := mkWorld {
  draws : nat -> N;
  ticks : nat -> string
}.

Definition M (A : Type) : Type := world -> outcome A * world.

Definition ret {A} (a : A) : M A := fun w => (Returns a, w).

Definition bind {A B} (c : M A) (k : A -> M B) : M B :=
  fun w =>
    match c w with
    | (Returns a, w') => k a w'
    | (Raises e, w') => (Raises e, w')
    end.

Definition raise {A} (e : exn) : M A := fun w => (Raises e, w).

Definition lift {A} (c : outcome A) : M A := fun w => (c, w).

(** [try: body  except Exception: handler]. *)
Definition try_except {A} (body : M A) (handler : exn -> M A) : M A :=
  fun w =>
    match body w with
    | (Returns a, w') => (Returns a, w')
    | (Raises e, w') => handler e w'
    end.

(** [datetime.now().isoformat()]. *)
Definition now_isoformat : M string :=
  fun w => (Returns (ticks w 0%nat),
            {| draws := draws w; ticks := fun n => ticks w (S n) |}).

Definition next_draw : M N :=
  fun w => (Returns (draws w 0%nat),
            {| draws := fun n => draws w (S n); ticks := ticks w |}).

(** [random.random()]: a multiple of 2^-53 in [0, 1). *)
Definition random_random : M Q :=
  bind next_draw (fun r => ret (Z.of_N (r mod 2 ^ 53) # 2 ^ 53)).

(** [random.uniform(a, b)] is [a + (b - a) * random()]. *)
Definition random_uniform (a b : Q) : M Q :=
  bind random_random (fun u => ret (a + (b - a) * u)%Q).

(** [randint(low, high)]: some integer of [low, high). *)
Definition randint (low high : Z) : M Z :=
  bind next_draw (fun r => ret (low + Z.of_N r mod (high - low))).

(** [round(x)] of Python 3: nearest integer, ties to even. *)
Definition round_half_even (x : Q) : Z :=
  let f := Qfloor x in
  match (x - inject_Z f ?= 1 # 2)%Q with
  | Lt => f
  | Gt => f + 1
  | Eq => if Z.even f then f else f + 1
  end.

(** [round(x, 1)]. *)
Definition round1 (x : Q) : Q := round_half_even (x * 10) # 10.

Definition Qleb (x y : Q) : bool := Qle_bool x y.
Definition Qltb (x y : Q) : bool := negb (Qle_bool y x).

(** [c.lower()] on an ASCII character. *)
Definition lower_ascii (c : ascii) : ascii :=
  let n := N_of_ascii c in
  if ((65 <=? n) && (n <=? 90))%N then ascii_of_N (n + 32) else c.

(** [s.lower()]. *)
Fixpoint lower (s : string) : string :=
  match s with
  | EmptyString => EmptyString
  | String c s' => String (lower_ascii c) (lower s')
  end.

(** [s.count(sub)] for a non-empty [sub]: occurrences found scanning left to
    right, each search resuming after the end of the previous match.
    [skip] is the number of characters of the last match still to pass. *)
Fixpoint count_from (sub : string) (skip : nat) (s : string) : Z :=
  match s with
  | EmptyString => 0
  | String _ s' =>
      match skip with
      | S k => count_from sub k s'
      | O =>
          if prefix sub s
          then 1 + count_from sub (String.length sub - 1) s'
          else count_from sub 0 s'
      end
  end.

Definition count (s sub : string) : Z := count_from sub 0 s.

(** The characters [str.split()] treats as separators (ASCII range). *)
Definition isspace (c : ascii) : bool :=
  let n := N_of_ascii c in
  (((9 <=? n) && (n <=? 13)) || ((28 <=? n) && (n <=? 32)))%N.

(** [len(s.split())]: the number of maximal runs of non-space characters.
    [inword] tells whether the previous character belonged to a word. *)
Fixpoint count_words (inword : bool) (s : string) : Z :=
  match s with
  | EmptyString => 0
  | String c s' =>
      if isspace c then count_words false s'
      else (if inword then 0 else 1) + count_words true s'
  end.

Definition len_split (s : string) : Z := count_words false s.

Definition is_terminator (c : ascii) : bool :=
  let n := N_of_ascii c in ((n =? 46) || (n =? 33) || (n =? 63))%N.

(** The number of maximal runs of [.], [!] and [?] in [s]. *)
Fixpoint count_runs (inrun : bool) (s : string) : Z :=
  match s with
  | EmptyString => 0
  | String c s' =>
      if is_terminator c
      then (if inrun then 0 else 1) + count_runs true s'
      else count_runs false s'
  end.

(** [len(re.split(r'[.!?]+', s))]: one piece more than there are runs. *)
Definition len_re_split (s : string) : Z := count_runs false s + 1.

(** [sep.join(parts)]. *)
Fixpoint join (sep : string) (parts : list string) : string :=
  match parts with
  | [] => EmptyString
  | [p] => p
  | p :: rest => (p ++ sep ++ join sep rest)%string
  end.

(** Lookup in an insertion-ordered dictionary with string keys. *)
Fixpoint lookup {V} (key : string) (d : list (string * V)) : option V :=
  match d with
  | [] => None
  | (k, v) :: rest => if String.eqb k key then Some v else lookup key rest
  end.

(** [d[key] = v]: replaces the value of an existing key in place, appends a
    new key at the end. *)
Fixpoint setitem {V} (key : string) (v : V) (d : list (string * V))
  : list (string * V) :=
  match d with
  | [] => [(key, v)]
  | (k, x) :: rest =>
      if String.eqb k key then (k, v) :: rest
      else (k, x) :: setitem key v rest
  end.

(** Insertion of [x] in front of the first element whose key is not
    smaller than its own. *)
Fixpoint insert_by {A} (key : A -> Z) (x : A) (l : list A) : list A :=
  match l with
  | [] => [x]
  | y :: rest =>
      if key y <? key x then y :: insert_by key x rest else x :: y :: rest
  end.

(** [l.sort(key=key)]: ascending, and stable (elements of equal key keep
    their order: each one is inserted in front of the later ones). *)
Definition sort_by {A} (key : A -> Z) (l : list A) : list A :=
  fold_right (insert_by key) [] l.

End Py.

Import Py.

Declare Scope py_scope.
Delimit Scope py_scope with py.
Notation "x <- c ;; k" := (bind c (fun x => k))
  (at level 61, c at next level, right associativity) : py_scope.
Notation "x <~ c ;; k" := (obind c (fun x => k))
  (at level 61, c at next level, right associativity) : py_scope.
Local Open Scope py_scope.

(* ================================================================== *)
(** ** dpr_analyzer.py *)
(* ================================================================== *)

Module DPRAnalyzer.

(** What the import block at the top of the module left behind:
    [NLP_AVAILABLE], whether the name [np] got bound ([import numpy as np]
    is the third import of the block, so an [ImportError] of [nltk] or
    [textblob] leaves it unbound), and the sentence and word counts of
    [TextBlob(text)], which may raise. *)
Record runtime : Type := mkRuntime {
  NLP_AVAILABLE : bool;
  np_bound : bool;
  textblob : string -> outcome (Z * Z)
}.

(** One entry of [section_analyses]. *)
Record section_dict : Type := mkSection {
  score : option Z;
  completeness : option Z;
  quality : option Z;
  keyword_matches : option Z;
  issues : list string;
  recommendations : list string
}.

Record quality_dict : Type := mkQuality {
  data_accuracy : Q;
  q_completeness : Q;
  technical_viability : Q;
  compliance : Q;
  budget_realism : Q
}.

Record stats_dict : Type := mkStats {
  word_count : Z;
  sentence_count : Z;
  readability : Q
}.

(** The analysis result; every key is optional because the consumers read
    it with [.get]. *)
Record analysis_dict : Type := mkAnalysis {
  filename : option string;
  analyzed_at : option string;
  overall_score : option Q;
  completeness_percentage : option Q;
  sections_found : option Z;
  total_sections : option Z;
  section_analyses : option (list (string * section_dict));
  quality_scores : option quality_dict;
  document_stats : option stats_dict
}.

Record recommendation : Type := mkRecommendation {
  priority : string;
  category : string;
  recommendation_text : string
}.

Definition section_weights : list (string * Z) :=
  [ ("Context/Background", 10);
    ("Problems Addressed", 15);
    ("Project Objectives", 15);
    ("Technology Issues", 10);
    ("Management Arrangements", 10);
    ("Means of Finance", 15);
    ("Time Frame", 10);
    ("Target Beneficiaries", 5);
    ("Legal Framework", 5);
    ("Risk Analysis", 5) ]%string.

Definition section_keywords : list (string * list string) :=
  [ ("Context/Background",
     ["context"; "background"; "policy"; "sector"; "strategic"; "importance"]);
    ("Problems Addressed",
     ["problem"; "issue"; "challenge"; "baseline"; "gap"; "need"]);
    ("Project Objectives",
     ["objective"; "goal"; "target"; "deliverable"; "outcome"; "benefit"]);
    ("Technology Issues",
     ["technology"; "technical"; "system"; "infrastructure"; "platform"]);
    ("Management Arrangements",
     ["management"; "organization"; "structure"; "responsibility"; "governance"]);
    ("Means of Finance",
     ["finance"; "budget"; "cost"; "funding"; "investment"; "expenditure"]);
    ("Time Frame",
     ["timeline"; "schedule"; "duration"; "phase"; "milestone"; "completion"]);
    ("Target Beneficiaries",
     ["beneficiary"; "stakeholder"; "community"; "user"; "participant"]);
    ("Legal Framework",
     ["legal"; "regulation"; "compliance"; "approval"; "clearance"; "law"]);
    ("Risk Analysis",
     ["risk"; "threat"; "vulnerability"; "mitigation"; "contingency"]) ]%string.

Definition quality_indicators : list (string * list string) :=
  [ ("Context/Background", ["policy"; "strategic"; "alignment"; "sector"]);
    ("Problems Addressed", ["baseline"; "data"; "evidence"; "statistics"]);
    ("Project Objectives", ["specific"; "measurable"; "achievable"; "relevant"]);
    ("Technology Issues",
     ["technical"; "feasibility"; "specifications"; "architecture"]);
    ("Management Arrangements",
     ["organization"; "roles"; "responsibilities"; "monitoring"]);
    ("Means of Finance", ["budget"; "cost"; "estimates"; "financial"]);
    ("Time Frame", ["timeline"; "milestones"; "schedule"; "phases"]);
    ("Target Beneficiaries",
     ["stakeholders"; "beneficiaries"; "community"; "impact"]);
    ("Legal Framework", ["compliance"; "regulations"; "approvals"; "legal"]);
    ("Risk Analysis", ["risks"; "mitigation"; "contingency"; "management"]) ]%string.

Definition section_advice : list (string * string) :=
  [ ("Context/Background",
     "Include sectoral policy references and strategic importance");
    ("Problems Addressed",
     "Provide comprehensive baseline data with statistical evidence");
    ("Project Objectives",
     "Define clear, measurable, and time-bound objectives");
    ("Technology Issues",
     "Add technical feasibility analysis and technology justification");
    ("Management Arrangements",
     "Detail organizational structure and monitoring framework");
    ("Means of Finance",
     "Include detailed budget breakdown with market-based estimates");
    ("Time Frame", "Provide realistic timeline with PERT/CPM analysis");
    ("Target Beneficiaries", "Conduct comprehensive stakeholder analysis");
    ("Legal Framework", "Ensure all regulatory requirements are addressed");
    ("Risk Analysis",
     "Develop comprehensive risk register with mitigation plans") ]%string.

(** [sum(text_lower.count(term) for term in terms)]. *)
Definition count_terms (text_lower : string) (terms : list string) : Z :=
  fold_left (fun acc term => acc + count text_lower term) terms 0.

Definition assess_section_quality (text_content section_name : string) : Z :=
  let text_lower := lower text_content in
  let indicators := get (lookup section_name quality_indicators) [] in
  let quality_count := count_terms text_lower indicators in
  Z.min 100 (50 + quality_count * 10).

Definition identify_section_issues
    (section_name : string) (score completeness : Z) : list string :=
  let issues := [] in
  let issues :=
    if score <? 50
    then issues ++ [("Low content quality in " ++ section_name)%string]
    else issues in
  let issues :=
    if completeness <? 60
    then issues ++ [("Incomplete coverage of " ++ section_name
                       ++ " requirements")%string]
    else issues in
  let issues :=
    if String.eqb section_name "Risk Analysis" && (score <? 70)
    then issues ++ ["Insufficient risk identification and mitigation strategies"%string]
    else issues in
  let issues :=
    if String.eqb section_name "Means of Finance" && (score <? 70)
    then issues ++ ["Budget details and cost estimates need improvement"%string]
    else issues in
  issues.

Definition generate_section_recommendations
    (section_name : string) (score : Z) : list string :=
  if score <? 75
  then [get (lookup section_name section_advice)
            ("Improve " ++ section_name ++ " section quality")%string]
  else [].

(** The keyword count of [analyze_section]. *)
Definition keyword_count (text_content section_name : string) : Z :=
  let keywords := get (lookup section_name section_keywords) [] in
  let text_lower := lower text_content in
  count_terms text_lower keywords.

Definition analyze_section (text_content section_name : string) : section_dict :=
  let keyword_count := keyword_count text_content section_name in
  let '(score, completeness) :=
    if 5 <=? keyword_count
    then (Z.min 90 (60 + keyword_count * 3), Z.min 95 (70 + keyword_count * 2))
    else if 2 <=? keyword_count
    then (50 + keyword_count * 8, 50 + keyword_count * 10)
    else (Z.max 30 (keyword_count * 15), Z.max 20 (keyword_count * 20)) in
  let quality := assess_section_quality text_content section_name in
  let issues := identify_section_issues section_name score completeness in
  let recommendations := generate_section_recommendations section_name score in
  {| score := Some (Z.min 100 score);
     completeness := Some (Z.min 100 completeness);
     quality := Some (Z.min 100 quality);
     keyword_matches := Some keyword_count;
     issues := issues;
     recommendations := recommendations |}.

Definition assess_data_accuracy (text_content : string) : Z :=
  let text_lower := lower text_content in
  let accuracy_indicators :=
    ["data"; "statistics"; "survey"; "study"; "research"; "evidence"; "source"]%string in
  let indicator_count := count_terms text_lower accuracy_indicators in
  Z.min 100 (40 + indicator_count * 8).

Definition assess_technical_viability
    (section_analyses : list (string * section_dict)) : Z :=
  let tech_score :=
    match lookup "Technology Issues"%string section_analyses with
    | Some d => get (score d) 50
    | None => 50
    end in
  Z.min 100 (tech_score + 10).

(** [sum(1 for a in section_analyses.values() if a['completeness'] > bound)]. *)
Fixpoint count_complete (bound : Z) (sections : list (string * section_dict))
  : outcome Z :=
  match sections with
  | [] => Returns 0
  | (_, analysis) :: rest =>
      c <~ getitem "completeness" (completeness analysis) ;;
      n <~ count_complete bound rest ;;
      Returns (if bound <? c then 1 + n else n)
  end.

Definition assess_compliance
    (section_analyses : list (string * section_dict)) : outcome Q :=
  let required_sections := Z.of_nat (List.length section_weights) in
  sections_present <~ count_complete 40 section_analyses ;;
  let compliance_ratio := (inject_Z sections_present / inject_Z required_sections)%Q in
  Returns (round1 (compliance_ratio * 100)).

Definition assess_budget_realism (text_content : string) : Z :=
  let text_lower := lower text_content in
  let budget_indicators :=
    ["cost"; "budget"; "estimate"; "financial"; "rupees"; "crore"; "lakh"]%string in
  let indicator_count := count_terms text_lower budget_indicators in
  Z.min 100 (30 + indicator_count * 12).

(** [[a['completeness'] for a in section_analyses.values()]]. *)
Fixpoint completeness_values (sections : list (string * section_dict))
  : outcome (list Z) :=
  match sections with
  | [] => Returns []
  | (_, analysis) :: rest =>
      c <~ getitem "completeness" (completeness analysis) ;;
      cs <~ completeness_values rest ;;
      Returns (c :: cs)
  end.

(** [np.mean(values)]; the name [np] has to be bound. *)
Definition np_mean (rt : runtime) (values : list Z) : outcome Q :=
  if np_bound rt
  then Returns (inject_Z (fold_left Z.add values 0%Z)
                  / inject_Z (Z.of_nat (List.length values)))%Q
  else Raises (NameError "np").

Definition calculate_quality_scores (rt : runtime) (text_content : string)
    (section_analyses : list (string * section_dict)) : outcome quality_dict :=
  let data_accuracy := assess_data_accuracy text_content in
  values <~ completeness_values section_analyses ;;
  completeness <~ np_mean rt values ;;
  let technical_viability := assess_technical_viability section_analyses in
  compliance <~ assess_compliance section_analyses ;;
  let budget_realism := assess_budget_realism text_content in
  Returns {| data_accuracy := round1 (inject_Z data_accuracy);
             q_completeness := round1 completeness;
             technical_viability := round1 (inject_Z technical_viability);
             compliance := round1 compliance;
             budget_realism := round1 (inject_Z budget_realism) |}.

Definition calculate_readability (rt : runtime) (text_content : string) : Q :=
  if negb (NLP_AVAILABLE rt) then 70
  else
    match textblob rt text_content with
    | Raises _ => 70
    | Returns (sentences, words) =>
        if sentences =? 0 then 50
        else
          let avg_sentence_length := (inject_Z words / inject_Z sentences)%Q in
          if Qltb avg_sentence_length 15 then 90
          else if Qltb avg_sentence_length 20 then 75
          else if Qltb avg_sentence_length 25 then 60
          else 45
    end.

(** The loop of [analyze_dpr] over [self.section_weights.keys()]. *)
Fixpoint score_sections (text_content : string) (names : list string)
    (section_analyses : list (string * section_dict))
    (total_weighted_score : Q)
  : outcome (list (string * section_dict) * Q) :=
  match names with
  | [] => Returns (section_analyses, total_weighted_score)
  | section_name :: rest =>
      let section_analysis := analyze_section text_content section_name in
      let section_analyses :=
        setitem section_name section_analysis section_analyses in
      weight <~ getitem section_name (lookup section_name section_weights) ;;
      s <~ getitem "score" (score section_analysis) ;;
      score_sections text_content rest section_analyses
        (total_weighted_score + inject_Z s * (inject_Z weight / 100))%Q
  end.

(** [generate_fallback_analysis]: the loop over the section names. *)
Fixpoint fallback_sections (rt : runtime) (base_score : Z) (names : list string)
    (section_analyses : list (string * section_dict))
  : M (list (string * section_dict)) :=
  match names with
  | [] => ret section_analyses
  | section_name :: rest =>
      if negb (np_bound rt) then raise (NameError "np")
      else
        j1 <- randint (-15) 16 ;;
        j2 <- randint (-10) 21 ;;
        j3 <- randint (-12) 13 ;;
        fallback_sections rt base_score rest
          (setitem section_name
             {| score := Some (base_score + j1);
                completeness := Some (base_score + j2);
                quality := Some (base_score + j3);
                keyword_matches := None;
                issues := [];
                recommendations := [] |}
             section_analyses)
  end.

Definition generate_fallback_analysis (rt : runtime)
    (filename text_content : string) : M analysis_dict :=
  let word_count := len_split text_content in
  let base_score := Z.min 85 (Z.max 45 (40 + word_count / 100)) in
  section_analyses <-
    fallback_sections rt base_score (map fst section_weights) [] ;;
  analyzed_at <- now_isoformat ;;
  ret {| filename := Some filename;
         analyzed_at := Some analyzed_at;
         overall_score := Some (inject_Z base_score);
         completeness_percentage := Some 75%Q;
         sections_found := Some 8;
         total_sections := Some 10;
         section_analyses := Some section_analyses;
         quality_scores :=
           Some {| data_accuracy := inject_Z base_score;
                   q_completeness := 75;
                   technical_viability := inject_Z (base_score - 5);
                   compliance := 80;
                   budget_realism := inject_Z (base_score - 10) |};
         document_stats :=
           Some {| word_count := word_count;
                   sentence_count := Z.max 10 (word_count / 20);
                   readability := 70 |} |}.

(** The body of the [try] block of [analyze_dpr]. *)
Definition analyze_dpr_try (rt : runtime) (text_content filename : string)
  : M analysis_dict :=
  let word_count := len_split text_content in
  let sentence_count := len_re_split text_content in
  scored <- lift (score_sections text_content (map fst section_weights) [] 0) ;;
  let '(section_analyses, total_weighted_score) := scored in
  let overall_score := round1 total_weighted_score in
  sections_found <- lift (count_complete 30 section_analyses) ;;
  let n_sections := Z.of_nat (List.length section_weights) in
  let completeness_percentage :=
    round1 ((inject_Z sections_found / inject_Z n_sections) * 100)%Q in
  quality_scores <-
    lift (calculate_quality_scores rt text_content section_analyses) ;;
  analyzed_at <- now_isoformat ;;
  ret {| filename := Some filename;
         analyzed_at := Some analyzed_at;
         overall_score := Some overall_score;
         completeness_percentage := Some completeness_percentage;
         sections_found := Some sections_found;
         total_sections := Some n_sections;
         section_analyses := Some section_analyses;
         quality_scores := Some quality_scores;
         document_stats :=
           Some {| word_count := word_count;
                   sentence_count := sentence_count;
                   readability :=
                     if NLP_AVAILABLE rt
                     then calculate_readability rt text_content
                     else 70 |} |}.

Definition analyze_dpr (rt : runtime) (text_content filename : string)
  : M analysis_dict :=
  try_except (analyze_dpr_try rt text_content filename)
    (fun _ => generate_fallback_analysis rt filename text_content).

(** The comprehension and the loop over the three worst sections of
    [generate_recommendations]. *)
Fixpoint scored_sections (sections : list (string * section_dict))
  : outcome (list (string * Z)) :=
  match sections with
  | [] => Returns []
  | (name, data) :: rest =>
      s <~ getitem "score" (score data) ;;
      others <~ scored_sections rest ;;
      Returns ((name, s) :: others)
  end.

Definition section_recommendation (entry : string * Z) : recommendation :=
  let '(section_name, s) := entry in
  {| priority := if s <? 50 then "High" else "Medium";
     category := section_name;
     recommendation_text :=
       ("Improve " ++ section_name ++ " section to meet MDoNER standards")%string |}.

Definition overall_quality_recommendation : recommendation :=
  {| priority := "High";
     category := "Overall Quality";
     recommendation_text :=
       "Comprehensive review and enhancement required across multiple sections" |}.

Definition technical_recommendation : recommendation :=
  {| priority := "Medium";
     category := "Technical Feasibility";
     recommendation_text :=
       "Include detailed technical feasibility study and technology validation" |}.

Definition generate_recommendations (analysis_result : analysis_dict)
  : outcome (list recommendation) :=
  let section_analyses := get (section_analyses analysis_result) [] in
  let overall_score := get (overall_score analysis_result) 0%Q in
  scored <~ scored_sections section_analyses ;;
  let low_scoring_sections := filter (fun e => snd e <? 65) scored in
  let low_scoring_sections := sort_by snd low_scoring_sections in
  let recommendations := map section_recommendation (firstn 3 low_scoring_sections) in
  let recommendations :=
    if Qltb overall_score 70
    then recommendations ++ [overall_quality_recommendation]
    else recommendations in
  let tech_score :=
    match lookup "Technology Issues"%string section_analyses with
    | Some tech_section => get (score tech_section) 0
    | None => 0
    end in
  let recommendations :=
    if tech_score <? 70
    then recommendations ++ [technical_recommendation]
    else recommendations in
  Returns (firstn 5 recommendations).

End DPRAnalyzer.

(* ================================================================== *)
(** ** risk_predictor.py *)
(* ================================================================== *)

Module RiskPredictor.

Import DPRAnalyzer.

Inductive risk_level : Type := Low | Medium | High.

Definition risk_level_eqb (a b : risk_level) : bool :=
  match a, b with
  | Low, Low | Medium, Medium | High, High => true
  | _, _ => false
  end.

(** One entry of [risk_predictions]; ['level'] is the key the aggregation
    reads back by subscript. *)
Record risk_dict : Type := mkRisk {
  probability : Q;
  level : option risk_level;
  severity : risk_level;
  primary_factors : list string;
  mitigation_suggestions : list string
}.

(** [overall_risk]; the three counts are missing from the dictionary that
    [_calculate_overall_risk] returns for an empty prediction set. *)
Record overall_dict : Type := mkOverall {
  overall_level : risk_level;
  overall_risk_score : Q;
  high_risk_count : option Z;
  medium_risk_count : option Z;
  low_risk_count : option Z
}.

Record risk_bundle : Type := mkBundle {
  overall_risk : overall_dict;
  risk_predictions : list (string * risk_dict);
  risk_summary : string;
  generated_at : string
}.

(** An entry of [self.models]: the dictionary [{'model': ..., 'scaler': ...}]
    that [_train_risk_models] stores for a category. *)
Inductive model_entry : Type := ModelAndScaler.

(** The state of a [RiskPredictor] after [__init__]: [ML_AVAILABLE] and
    [self.models] ([None] without the libraries or when training raised). *)
Record predictor : Type := mkPredictor {
  ML_AVAILABLE : bool;
  models : option (list (string * model_entry))
}.

Definition risk_categories : list string :=
  [ "Budget Overrun Risk";
    "Timeline Delay Risk";
    "Technical Implementation Risk";
    "Compliance Risk";
    "Resource Availability Risk" ]%string.

Definition risk_factors_table : list (string * list string) :=
  [ ("Budget Overrun Risk",
     ["Inadequate cost estimation methodology";
      "Missing market rate analysis";
      "No contingency planning";
      "Unrealistic budget assumptions"]);
    ("Timeline Delay Risk",
     ["Aggressive project timeline";
      "Insufficient buffer time allocation";
      "Complex dependency management";
      "Approval process delays"]);
    ("Technical Implementation Risk",
     ["Unproven technology selection";
      "High technical complexity";
      "Integration challenges";
      "Skill gap in implementation team"]);
    ("Compliance Risk",
     ["Missing regulatory approvals";
      "Incomplete compliance framework";
      "Environmental clearance gaps";
      "Legal framework uncertainties"]);
    ("Resource Availability Risk",
     ["Skilled manpower shortage";
      "Equipment procurement delays";
      "Vendor reliability issues";
      "Resource allocation conflicts"]) ]%string.

Definition mitigation_strategies : list (string * list string) :=
  [ ("Budget Overrun Risk",
     ["Conduct detailed market survey for cost estimation";
      "Include 10-15% contingency in budget";
      "Implement regular cost monitoring and control";
      "Establish cost escalation mechanisms"]);
    ("Timeline Delay Risk",
     ["Develop realistic project schedule with buffers";
      "Implement critical path method (CPM)";
      "Establish fast-track approval processes";
      "Create parallel execution streams"]);
    ("Technical Implementation Risk",
     ["Conduct proof of concept studies";
      "Engage technical experts and consultants";
      "Implement phased rollout approach";
      "Establish technical support agreements"]);
    ("Compliance Risk",
     ["Engage early with regulatory authorities";
      "Conduct comprehensive legal review";
      "Establish compliance monitoring framework";
      "Maintain regulatory relationship management"]);
    ("Resource Availability Risk",
     ["Develop comprehensive resource plan";
      "Establish vendor partnerships and agreements";
      "Implement skill development programs";
      "Create resource backup strategies"]) ]%string.

Definition _identify_risk_factors
    (risk_category : string) (analysis_result : analysis_dict) : list string :=
  let factors :=
    get (lookup risk_category risk_factors_table) ["General project risks"%string] in
  firstn 3 factors.

Definition _get_mitigation_suggestions (risk_category : string) : list string :=
  let suggestions :=
    get (lookup risk_category mitigation_strategies)
        ["Develop risk-specific mitigation plan"%string] in
  firstn 3 suggestions.

(** [section_analyses.get(name, {}).get('score', default)]. *)
Definition section_score (section_analyses : list (string * section_dict))
    (name : string) (default : Z) : Z :=
  match lookup name section_analyses with
  | Some d => get (score d) default
  | None => default
  end.

(** The mapping of a probability to a level shared by the strategies. *)
Definition level_of (probability : Q) : risk_level :=
  if Qleb 60 probability then High
  else if Qleb 40 probability then Medium
  else Low.

Definition _rule_based_risk
    (risk_category : string) (analysis_result : analysis_dict) : risk_dict :=
  let section_analyses := get (section_analyses analysis_result) [] in
  let overall_score := get (overall_score analysis_result) 75%Q in
  let base_probability := Qmax 0 (100 - overall_score) in
  let probability :=
    if String.eqb risk_category "Budget Overrun Risk" then
      let finance_score := section_score section_analyses "Means of Finance" 70 in
      (base_probability + (100 - inject_Z finance_score) * (5 # 10))%Q
    else if String.eqb risk_category "Timeline Delay Risk" then
      let timeline_score := section_score section_analyses "Time Frame" 70 in
      (base_probability + (100 - inject_Z timeline_score) * (6 # 10))%Q
    else if String.eqb risk_category "Technical Implementation Risk" then
      let tech_score := section_score section_analyses "Technology Issues" 70 in
      (base_probability + (100 - inject_Z tech_score) * (7 # 10))%Q
    else if String.eqb risk_category "Compliance Risk" then
      let legal_score := section_score section_analyses "Legal Framework" 80 in
      (base_probability + (100 - inject_Z legal_score) * (4 # 10))%Q
    else if String.eqb risk_category "Resource Availability Risk" then
      let mgmt_score :=
        section_score section_analyses "Management Arrangements" 75 in
      (base_probability + (100 - inject_Z mgmt_score) * (5 # 10))%Q
    else base_probability in
  let probability := Qmin 85 (Qmax 15 probability) in
  let level := level_of probability in
  let severity := level in
  {| probability := round1 probability;
     level := Some level;
     severity := severity;
     primary_factors := _identify_risk_factors risk_category analysis_result;
     mitigation_suggestions := _get_mitigation_suggestions risk_category |}.

Definition _predict_with_rules (analysis_result : analysis_dict)
  : list (string * risk_dict) :=
  fold_left
    (fun risk_predictions risk_category =>
       setitem risk_category (_rule_based_risk risk_category analysis_result)
               risk_predictions)
    risk_categories [].

Definition section_names_of_features : list string :=
  [ "Context/Background"; "Problems Addressed"; "Project Objectives";
    "Technology Issues"; "Management Arrangements"; "Means of Finance";
    "Time Frame"; "Target Beneficiaries"; "Legal Framework";
    "Risk Analysis" ]%string.

Definition _extract_features (analysis_result : analysis_dict) : list Q :=
  let section_analyses := get (section_analyses analysis_result) [] in
  let features :=
    [ (get (overall_score analysis_result) 75 / 100)%Q;
      (get (completeness_percentage analysis_result) 80 / 100)%Q ] in
  let features :=
    features ++
    map (fun section_name =>
           (inject_Z (section_score section_analyses section_name 70) / 100)%Q)
        section_names_of_features in
  let quality :=
    match quality_scores analysis_result with
    | Some q =>
        [ data_accuracy q; q_completeness q; technical_viability q;
          compliance q; budget_realism q ]
    | None => [70%Q; 70%Q; 70%Q; 70%Q; 70%Q]
    end in
  features ++ map (fun s => (s / 100)%Q) quality.

(** [model.predict_proba([features])[0][1]]: the entry is a dictionary,
    which has no attribute [predict_proba]. *)
Definition predict_proba (model : model_entry) (features : list Q) : outcome Q :=
  Raises (AttributeError "predict_proba").

Definition _predict_with_ml (trained : list (string * model_entry))
    (analysis_result : analysis_dict) : list (string * risk_dict) :=
  let features := _extract_features analysis_result in
  fold_left
    (fun risk_predictions risk_category =>
       let entry :=
         match lookup risk_category trained with
         | Some model =>
             match predict_proba model features with
             | Returns p =>
                 let probability := (p * 100)%Q in
                 let level := level_of probability in
                 {| probability := round1 probability;
                    level := Some level;
                    severity := level;
                    primary_factors :=
                      _identify_risk_factors risk_category analysis_result;
                    mitigation_suggestions :=
                      _get_mitigation_suggestions risk_category |}
             | Raises _ => _rule_based_risk risk_category analysis_result
             end
         | None => _rule_based_risk risk_category analysis_result
         end in
       setitem risk_category entry risk_predictions)
    risk_categories [].

(** [sum(1 for risk in risk_predictions.values() if risk['level'] == l)]. *)
Fixpoint count_level (l : risk_level) (risk_predictions : list (string * risk_dict))
  : outcome Z :=
  match risk_predictions with
  | [] => Returns 0
  | (_, risk) :: rest =>
      lv <~ getitem "level" (level risk) ;;
      n <~ count_level l rest ;;
      Returns (if risk_level_eqb lv l then 1 + n else n)
  end.

Definition _calculate_overall_risk (risk_predictions : list (string * risk_dict))
  : outcome overall_dict :=
  high_risk_count <~ count_level High risk_predictions ;;
  medium_risk_count <~ count_level Medium risk_predictions ;;
  low_risk_count <~ count_level Low risk_predictions ;;
  let total_risks := Z.of_nat (List.length risk_predictions) in
  if total_risks =? 0 then
    Returns
    {| overall_level := Medium; overall_risk_score := 50;
       high_risk_count := None; medium_risk_count := None;
       low_risk_count := None |}
  else
    let weighted_score :=
      (inject_Z (high_risk_count * 3 + medium_risk_count * 2 + low_risk_count * 1)
         / inject_Z total_risks)%Q in
    let overall_level :=
      if Qleb (25 # 10) weighted_score then High
      else if Qleb (15 # 10) weighted_score then Medium
      else Low in
    let overall_score := round1 ((weighted_score / 3) * 100)%Q in
    Returns
    {| overall_level := overall_level;
       overall_risk_score := overall_score;
       high_risk_count := Some high_risk_count;
       medium_risk_count := Some medium_risk_count;
       low_risk_count := Some low_risk_count |}.

(** [[name for name, data in risk_predictions.items() if data['level'] == 'High']]. *)
Fixpoint high_risk_names (risk_predictions : list (string * risk_dict))
  : outcome (list string) :=
  match risk_predictions with
  | [] => Returns []
  | (name, data) :: rest =>
      lv <~ getitem "level" (level data) ;;
      names <~ high_risk_names rest ;;
      Returns (if risk_level_eqb lv High then name :: names else names)
  end.

Definition _generate_risk_summary
    (risk_predictions : list (string * risk_dict)) (overall_risk : overall_dict)
  : outcome string :=
  high_risks <~ high_risk_names risk_predictions ;;
  match high_risks with
  | _ :: _ =>
      Returns
      ("High priority risks identified in " ++ join ", " high_risks ++ ". "
         ++ "Immediate attention and mitigation planning required.")%string
  | [] =>
      if risk_level_eqb (overall_level overall_risk) Medium
      then Returns "Medium priority risks identified. Enhanced monitoring and mitigation planning recommended."%string
      else Returns "Low risk project profile. Standard risk management practices sufficient."%string
  end.

(** The loop of [_generate_fallback_risks] over [self.risk_categories]. *)
Fixpoint fallback_predictions (categories : list string)
    (risk_predictions : list (string * risk_dict))
  : M (list (string * risk_dict)) :=
  match categories with
  | [] => ret risk_predictions
  | risk_category :: rest =>
      probability <- random_uniform 25 75 ;;
      let level := level_of probability in
      fallback_predictions rest
        (setitem risk_category
           {| probability := round1 probability;
              level := Some level;
              severity := level;
              primary_factors :=
                ["Analysis module error - using fallback assessment"%string];
              mitigation_suggestions :=
                ["Conduct detailed risk assessment manually"%string] |}
           risk_predictions)
  end.

Definition _generate_fallback_risks : M risk_bundle :=
  risk_predictions <- fallback_predictions risk_categories [] ;;
  let overall_risk :=
    {| overall_level := Medium; overall_risk_score := 50;
       high_risk_count := Some 1; medium_risk_count := Some 3;
       low_risk_count := Some 1 |} in
  generated_at <- now_isoformat ;;
  ret {| overall_risk := overall_risk;
         risk_predictions := risk_predictions;
         risk_summary := "Fallback risk assessment - manual review recommended";
         generated_at := generated_at |}.

(** [self.models] in a condition: [None] and the empty dictionary are false. *)
Definition truthy {A} (d : option (list A)) : bool :=
  match d with
  | Some (_ :: _) => true
  | _ => false
  end.

(** The body of the [try] block of [predict_risks]. *)
Definition predict_risks_try (p : predictor) (analysis_result : analysis_dict)
  : M risk_bundle :=
  let risk_predictions :=
    if ML_AVAILABLE p && truthy (models p)
    then _predict_with_ml (get (models p) []) analysis_result
    else _predict_with_rules analysis_result in
  overall_risk <- lift (_calculate_overall_risk risk_predictions) ;;
  risk_summary <- lift (_generate_risk_summary risk_predictions overall_risk) ;;
  generated_at <- now_isoformat ;;
  ret {| overall_risk := overall_risk;
         risk_predictions := risk_predictions;
         risk_summary := risk_summary;
         generated_at := generated_at |}.

Definition predict_risks (p : predictor) (analysis_result : analysis_dict)
  : M risk_bundle :=
  try_except (predict_risks_try p analysis_result)
    (fun _ => _generate_fallback_risks).

End RiskPredictor.

(* ================================================================== *)
(** ** app.py *)
(* ================================================================== *)

Module App.

Definition ALLOWED_EXTENSIONS : list string := ["pdf"; "txt"; "doc"; "docx"]%string.

(** [c in s] for a one-character string [c]. *)
Fixpoint contains (c : ascii) (s : string) : bool :=
  match s with
  | EmptyString => false
  | String x s' => Ascii.eqb x c || contains c s'
  end.

(** The parts of [s] before and after the last occurrence of [sep]. *)
Fixpoint split_last (sep : ascii) (s : string) : option (string * string) :=
  match s with
  | EmptyString => None
  | String c s' =>
      match split_last sep s' with
      | Some (before, after) => Some (String c before, after)
      | None => if Ascii.eqb c sep then Some (EmptyString, s') else None
      end
  end.

(** [s.rsplit(sep, 1)]. *)
Definition rsplit1 (sep : ascii) (s : string) : list string :=
  match split_last sep s with
  | Some (before, after) => [before; after]
  | None => [s]
  end.

(** [allowed_file]; [None] stands for the [IndexError] that [[1]] raises on
    a list of one element. *)
Definition allowed_file (filename : string) : option bool :=
  if contains "." filename
  then match nth_error (rsplit1 "." filename) 1 with
       | Some extension =>
           Some (existsb (String.eqb (lower extension)) ALLOWED_EXTENSIONS)
       | None => None
       end
  else Some false.

End App.

(* ================================================================== *)
(** ** pdf_processor.py *)
(* ================================================================== *)

Module PDFProcessor.

(** The flags set by the import blocks at the top of the module. *)
Record libraries : Type := mkLibraries {
  PDF_AVAILABLE : bool;
  PDFPLUMBER_AVAILABLE : bool;
  DOCX_AVAILABLE : bool
}.

(** The result of a call into a document library or the file system: a
    value, or some exception. *)
Inductive attempt (A : Type) : Type :=
| Done (a : A)
| Failed.
Arguments Done {A} a.
Arguments Failed {A}.

(** The result of opening and reading a text file in one encoding. *)
Inductive read_result : Type :=
| ReadText (text : string)
| ReadUnicodeDecodeError
| ReadOtherError.

(** What the file system and the libraries answer for the path given to
    [extract_text]: whether it exists, [os.path.splitext(path.lower())[1]],
    the pages pdfplumber yields ([extract_text()] of a page may be [None]
    and may raise, as may opening the file), the pages PyPDF2 yields, the
    paragraphs and the tables (rows of cells) of the Word document, and the
    content of the file read as UTF-8 and as Latin-1. *)
Record document : Type := mkDocument {
  path_exists : bool;
  file_ext : string;
  plumber_pages : attempt (list (attempt (option string)));
  pypdf_pages : attempt (list (attempt string));
  docx_content : attempt (list string * list (list (list string)));
  utf8_read : read_result;
  latin1_read : attempt string
}.

Definition newline : string := String "010"%char EmptyString.

(** [s.lstrip()]. *)
Fixpoint lstrip (s : string) : string :=
  match s with
  | EmptyString => EmptyString
  | String c s' => if isspace c then lstrip s' else s
  end.

(** [s.rstrip()]. *)
Fixpoint rstrip (s : string) : string :=
  match s with
  | EmptyString => EmptyString
  | String c s' =>
      match rstrip s' with
      | EmptyString => if isspace c then EmptyString else String c EmptyString
      | rest => String c rest
      end
  end.

(** [s.strip()]. *)
Definition strip (s : string) : string := rstrip (lstrip s).

(** A string in a condition: the empty string is false. *)
Definition nonempty (s : string) : bool :=
  match s with
  | EmptyString => false
  | String _ _ => true
  end.

Definition _get_sample_text : string :=
"
DETAILED PROJECT REPORT (DPR)
Digital Infrastructure Development Project - Northeast India

1. CONTEXT/BACKGROUND
This project is aligned with the Digital India initiative and addresses the specific needs of the northeastern region of India. The project supports the sectoral policy framework for digital transformation and strategic development priorities of the Ministry of Development of North Eastern Region (MDoNER).

The northeastern region faces significant challenges in digital infrastructure development due to its geographical terrain, connectivity issues, and limited technological penetration. This project aims to bridge the digital divide and create a robust foundation for sustainable development in the region.

2. PROBLEMS ADDRESSED
Current baseline data indicates that approximately 60% of rural areas in the northeastern states lack adequate broadband connectivity. The region experiences poor mobile network coverage, with only 45% coverage in remote areas. 

Key problems identified through comprehensive surveys and studies include:
- Limited high-speed internet connectivity in rural and remote areas
- Inadequate digital literacy among the population
- Lack of e-governance infrastructure in district and block levels
- Poor telecommunications infrastructure affecting economic activities
- Limited access to digital financial services

3. PROJECT OBJECTIVES
The primary development objectives of this project are:
- Establish high-speed broadband connectivity to 500 villages across 8 northeastern states
- Implement comprehensive e-governance solutions in 25 districts
- Develop digital literacy programs reaching 100,000 beneficiaries
- Create digital infrastructure for 200 schools and 50 healthcare centers
- Establish 25 Common Service Centers (CSCs) in remote areas

Expected deliverable outcomes include measurable improvements in digital connectivity, increased adoption of e-governance services, and enhanced digital skills among target beneficiaries.

4. TECHNOLOGY ISSUES
The project will utilize proven fiber optic technology for backbone connectivity, ensuring scalable and reliable high-speed internet access. Technical specifications include:
- Fiber-to-the-Home (FTTH) technology for urban areas
- Satellite communication systems for extremely remote locations
- 4G/5G mobile tower infrastructure enhancement
- Cloud-based e-governance platform implementation
- Cybersecurity framework integration

Technology choice has been validated through feasibility studies and pilot implementations in similar geographical conditions. The selected technologies have demonstrated effectiveness in challenging terrains and weather conditions typical of the northeastern region.

5. MANAGEMENT ARRANGEMENTS
The project will be implemented through a three-tier management structure:
- State Level: State Implementation Units (SIUs) in each participating state
- District Level: District Project Management Units (DPMUs) for local coordination
- Block Level: Block Implementation Teams (BITs) for ground-level execution

Project governance includes:
- Project Steering Committee chaired by Additional Secretary, MDoNER
- State Coordination Committees in each participating state
- Technical Advisory Group with domain experts
- Community Engagement Teams for stakeholder management

Monitoring framework includes monthly progress reviews, quarterly assessments, and annual evaluations with key performance indicators (KPIs) tracking.

6. MEANS OF FINANCE
Total project cost is estimated at Rs. 350 crores over a 4-year implementation period:

Central Government Grant: Rs. 280 crores (80%)
- Infrastructure development: Rs. 200 crores
- Capacity building: Rs. 50 crores
- Technology implementation: Rs. 30 crores

State Government Contribution: Rs. 70 crores (20%)
- Land acquisition and site preparation: Rs. 40 crores
- Local infrastructure support: Rs. 30 crores

Cost estimates are based on current market rates, detailed technical specifications, and include provisions for price escalation and contingencies. Financial planning includes phased fund release tied to milestone achievements.

7. TIME FRAME
Project implementation timeline: 48 months (April 2024 to March 2028)

Phase 1 (Months 1-12): Infrastructure planning and initial deployment
Phase 2 (Months 13-24): Core infrastructure development and testing
Phase 3 (Months 25-36): Service rollout and capacity building
Phase 4 (Months 37-48): Completion, evaluation, and handover

Critical path analysis has been conducted using PERT methodology, identifying key dependencies and potential bottlenecks. Buffer time allocation includes 10% contingency for weather-related delays and approval processes.

8. TARGET BENEFICIARIES
Direct beneficiaries: 800,000 individuals across northeastern states
- Rural population: 600,000 people in 500 villages
- Students: 150,000 across 200 educational institutions
- Healthcare workers: 5,000 in primary health centers and hospitals
- Government officials: 25,000 in district and block administrations
- Small business owners: 20,000 entrepreneurs and traders

Indirect beneficiaries include family members and community stakeholders, estimated at 2.5 million people. Comprehensive stakeholder consultation has been conducted through village meetings, focus group discussions, and surveys.

9. LEGAL FRAMEWORK
The project operates within the comprehensive legal framework including:
- Information Technology Act, 2000 and amendments
- Telecommunications Act, 1885 and relevant regulations
- Digital India Land Acquisition guidelines
- State-specific telecommunications policies
- Environmental and forest clearance requirements

All necessary approvals have been obtained:
- Ministry of Communications and Information Technology clearance
- State government approvals from all 8 participating states
- Environmental impact assessment completed
- Forest clearance for tower installations obtained

10. RISK ANALYSIS
Comprehensive risk assessment has identified potential challenges:

Technical Risks:
- Geographical terrain challenges in installation
- Equipment transportation difficulties
- Weather-related implementation delays
- Technology integration complexities

Financial Risks:
- Cost escalation due to inflation
- Currency fluctuation affecting equipment costs
- Funding delays from state governments

Operational Risks:
- Skilled manpower availability in remote areas
- Community acceptance and adoption rates
- Maintenance and support challenges

Mitigation strategies include:
- Detailed contingency planning with 15% budget allocation
- Alternative technology solutions for challenging terrains
- Comprehensive training and capacity building programs
- Community engagement and awareness initiatives
- Robust maintenance and support framework

Regular risk monitoring and review mechanisms have been established with quarterly risk assessments and mitigation plan updates.

This detailed project report demonstrates comprehensive planning, stakeholder engagement, and risk management essential for successful implementation of digital infrastructure development in India's northeastern region.
        "%string.

(** The loop over [pdf.pages] of pdfplumber: the text accumulated, and
    whether a page raised (which leaves the loop and the [try] block). *)
Fixpoint plumber_loop (pages : list (attempt (option string))) (text : string)
  : string * bool :=
  match pages with
  | [] => (text, false)
  | Failed :: _ => (text, true)
  | Done page_text :: rest =>
      plumber_loop rest
        (match page_text with
         | Some t => if nonempty t then (text ++ t ++ newline)%string else text
         | None => text
         end)
  end.

(** The loop over [reader.pages] of PyPDF2. *)
Fixpoint pypdf_loop (pages : list (attempt string)) (text : string)
  : string * bool :=
  match pages with
  | [] => (text, false)
  | Failed :: _ => (text, true)
  | Done page_text :: rest =>
      pypdf_loop rest (text ++ page_text ++ newline)%string
  end.

Definition _extract_from_pdf (libs : libraries) (doc : document) : string :=
  let text := EmptyString in
  let '(text, found) :=
    if PDFPLUMBER_AVAILABLE libs then
      match plumber_pages doc with
      | Done pages =>
          let '(text, raised) := plumber_loop pages text in
          if raised then (text, None)
          else if nonempty (strip text) then (text, Some (strip text))
          else (text, None)
      | Failed => (text, None)
      end
    else (text, None) in
  match found with
  | Some result => result
  | None =>
      let '(text, found) :=
        if PDF_AVAILABLE libs then
          match pypdf_pages doc with
          | Done pages =>
              let '(text, raised) := pypdf_loop pages text in
              if raised then (text, None)
              else if nonempty (strip text) then (text, Some (strip text))
              else (text, None)
          | Failed => (text, None)
          end
        else (text, None) in
      match found with
      | Some result => result
      | None => _get_sample_text
      end
  end.

(** The text of a Word document: the paragraphs, one per line, then every
    table row on a line of its own, a space after each cell. *)
Definition docx_text (paragraphs : list string)
    (tables : list (list (list string))) : string :=
  let text :=
    fold_left (fun text paragraph => (text ++ paragraph ++ newline)%string)
              paragraphs EmptyString in
  fold_left
    (fun text table =>
       fold_left
         (fun text row =>
            (fold_left (fun text cell => (text ++ cell ++ " ")%string) row text
             ++ newline)%string)
         table text)
    tables text.

Definition _extract_from_docx (libs : libraries) (doc : document) : string :=
  if negb (DOCX_AVAILABLE libs) then _get_sample_text
  else
    match docx_content doc with
    | Done (paragraphs, tables) =>
        let text := docx_text paragraphs tables in
        if nonempty (strip text) then strip text else _get_sample_text
    | Failed => _get_sample_text
    end.

Definition _extract_from_txt (doc : document) : string :=
  match utf8_read doc with
  | ReadText text =>
      if nonempty (strip text) then strip text else _get_sample_text
  | ReadUnicodeDecodeError =>
      match latin1_read doc with
      | Done text =>
          if nonempty (strip text) then strip text else _get_sample_text
      | Failed => _get_sample_text
      end
  | ReadOtherError => _get_sample_text
  end.

(** [extract_text]. The three extractors guard every library call with a
    handler of their own, so the outer handler has nothing to catch. *)
Definition extract_text (libs : libraries) (doc : document) : string :=
  if negb (path_exists doc) then _get_sample_text
  else
    let file_ext := file_ext doc in
    if String.eqb file_ext ".pdf" then _extract_from_pdf libs doc
    else if String.eqb file_ext ".docx" || String.eqb file_ext ".doc"
    then _extract_from_docx libs doc
    else if String.eqb file_ext ".txt" then _extract_from_txt doc
    else _get_sample_text.

End PDFProcessor.

(* ================================================================== *)
(** ** Definitions used to state the properties *)
(* ================================================================== *)

Import DPRAnalyzer RiskPredictor.

(** A text [extract_text] can hand to the analysis: the sample document, or
    a non-empty text without leading or trailing white space. *)
Definition extracted (t : string) : Prop :=
  t = PDFProcessor._get_sample_text
  \/ (t <> EmptyString /\ PDFProcessor.strip t = t).

(** A process with every document library. *)
Definition all_libraries : PDFProcessor.libraries :=
  {| PDFProcessor.PDF_AVAILABLE := true;
     PDFProcessor.PDFPLUMBER_AVAILABLE := true;
     PDFProcessor.DOCX_AVAILABLE := true |}.

(** A PDF whose second page makes pdfplumber raise, after which PyPDF2
    reads both pages. *)
Definition half_read_pdf : PDFProcessor.document :=
  {| PDFProcessor.path_exists := true;
     PDFProcessor.file_ext := ".pdf";
     PDFProcessor.plumber_pages :=
       PDFProcessor.Done [PDFProcessor.Done (Some "Budget page"%string);
                          PDFProcessor.Failed];
     PDFProcessor.pypdf_pages :=
       PDFProcessor.Done [PDFProcessor.Done "Budget page"%string;
                          PDFProcessor.Done "Risk page"%string];
     PDFProcessor.docx_content := PDFProcessor.Failed;
     PDFProcessor.utf8_read := PDFProcessor.ReadOtherError;
     PDFProcessor.latin1_read := PDFProcessor.Failed |}.

(** The score and completeness of a section before the final clamp, as the
    three tiers give them. *)
Definition tier_score (k : Z) : Z :=
  if 5 <=? k then Z.min 90 (60 + 3 * k)
  else if 2 <=? k then 50 + 8 * k
  else Z.max 30 (15 * k).

Definition tier_completeness (k : Z) : Z :=
  if 5 <=? k then Z.min 95 (70 + 2 * k)
  else if 2 <=? k then 50 + 10 * k
  else Z.max 20 (20 * k).

(** The driver of each risk category of the rule-based strategy: the
    section whose score deficit is added, the score assumed when the section
    or its score is missing, and the weight of the deficit. *)
Definition risk_drivers : list (string * string * Z * Q) :=
  [ ("Budget Overrun Risk", "Means of Finance", 70, 5 # 10);
    ("Timeline Delay Risk", "Time Frame", 70, 6 # 10);
    ("Technical Implementation Risk", "Technology Issues", 70, 7 # 10);
    ("Compliance Risk", "Legal Framework", 80, 4 # 10);
    ("Resource Availability Risk", "Management Arrangements", 75, 5 # 10) ]%string.

(** A number with at most one decimal. *)
Definition tenths (x : Q) : Prop := exists z : Z, (x == z # 10)%Q.


Definition section_with_score (s : Z) : section_dict :=
  {| score := Some s; completeness := Some s; quality := Some s;
     keyword_matches := Some 0; issues := []; recommendations := [] |}.


(** The number of results of level [l] among [levels]. *)
Definition tally (l : risk_level) (levels : list risk_level) : Z :=
  Z.of_nat (List.length (filter (fun lv => risk_level_eqb lv l) levels)).

Definition risk_with_level (l : risk_level) : risk_dict :=
  {| probability := 50; level := Some l; severity := l;
     primary_factors := []; mitigation_suggestions := [] |}.

(** Scenario E: four categories High, one Low. *)
Definition scenario_e : list (string * risk_dict) :=
  [ ("Budget Overrun Risk", risk_with_level High);
    ("Timeline Delay Risk", risk_with_level High);
    ("Technical Implementation Risk", risk_with_level Low);
    ("Compliance Risk", risk_with_level High);
    ("Resource Availability Risk", risk_with_level High) ]%string.

(** A sample runtime with every library imported; its tokenizer stands for
    TextBlob's: sentences are the runs closed by a terminator, words the
    whitespace-delimited tokens. *)
Definition nlp_runtime : runtime :=
  {| NLP_AVAILABLE := true;
     np_bound := true;
     textblob := fun text => Returns (count_runs false text, len_split text) |}.

(** The runtime left by an [ImportError] of [nltk]: nothing of the import
    block is bound. *)
Definition no_nlp_runtime : runtime :=
  {| NLP_AVAILABLE := false;
     np_bound := false;
     textblob := fun _ => Raises (NameError "TextBlob") |}.

(** The weighted sum of per-section scores, weights taken as percentages. *)
Definition weighted_sum (scores : string -> Q) : Q :=
  fold_right Qplus 0%Q
    (map (fun nw => (scores (fst nw) * (inject_Z (snd nw) / 100))%Q)
         section_weights).

(** The score stored for a section, as a rational. *)
Definition score_of (d : section_dict) : Q := inject_Z (get (score d) 0).

(** The section analyses of the normal path, in catalog order. *)
Definition analyzed_sections (text : string) : list (string * section_dict) :=
  map (fun nw => (fst nw, analyze_section text (fst nw))) section_weights.

(** A world whose clock advances between readings and whose generators
    keep drawing 30. *)
Definition sample_world : world :=
  {| draws := fun _ => 30%N;
     ticks := fun n =>
                match n with
                | O => "2025-01-01T09:00:00.000000"
                | _ => "2025-01-01T09:00:01.250000"
                end%string |}.

(** An analysis record with six scored sections, four of them below 65. *)
Definition sample_analysis : analysis_dict :=
  {| filename := Some "sample.pdf"%string; analyzed_at := Some "t"%string;
     overall_score := Some (555 # 10)%Q;
     completeness_percentage := Some 60%Q; sections_found := Some 6;
     total_sections := Some 10;
     section_analyses :=
       Some [ ("Context/Background", section_with_score 40);
              ("Technology Issues", section_with_score 60);
              ("Means of Finance", section_with_score 90);
              ("Risk Analysis", section_with_score 40);
              ("Time Frame", section_with_score 30);
              ("Legal Framework", section_with_score 65) ]%string;
     quality_scores := None; document_stats := None |}.

Definition by_score (x y : string * Z) : Prop := snd x <= snd y.

(** A text of [n] words. *)
Fixpoint words_text (n : nat) : string :=
  match n with
  | O => EmptyString
  | S k => ("word " ++ words_text k)%string
  end.

Definition long_text : string := words_text 4500.

(** What every section entry of the fallback analysis looks like, relative
    to the base score. *)
Definition fallback_section (base_score : Z) (d : section_dict) : Prop :=
  keyword_matches d = None
  /\ issues d = [] /\ recommendations d = []
  /\ (exists s, score d = Some s /\ base_score - 15 <= s <= base_score + 15)
  /\ (exists c, completeness d = Some c
                /\ base_score - 10 <= c <= base_score + 20)
  /\ (exists q, quality d = Some q /\ base_score - 12 <= q <= base_score + 12).

(** What every entry of the fallback risk bundle looks like. *)
Definition fallback_entry (d : risk_dict) : Prop :=
  (25 <= probability d <= 75)%Q
  /\ primary_factors d
     = ["Analysis module error - using fallback assessment"%string]
  /\ mitigation_suggestions d
     = ["Conduct detailed risk assessment manually"%string]
  /\ level d = Some (severity d).

Definition fallback_bundle (b : risk_bundle) : Prop :=
  map fst (risk_predictions b) = risk_categories
  /\ Forall (fun e => fallback_entry (snd e)) (risk_predictions b)
  /\ overall_level (overall_risk b) = Medium
  /\ overall_risk_score (overall_risk b) = 50%Q
  /\ risk_summary b
     = "Fallback risk assessment - manual review recommended"%string.

(** The world after one reading of the clock. *)
Definition after_tick (w : world) : world :=
  {| draws := draws w; ticks := fun n => ticks w (S n) |}.

(** An analysis record with its time stamp replaced. *)
Definition with_analyzed_at (a : analysis_dict) (t : option string)
  : analysis_dict :=
  {| filename := filename a;
     analyzed_at := t;
     overall_score := overall_score a;
     completeness_percentage := completeness_percentage a;
     sections_found := sections_found a;
     total_sections := total_sections a;
     section_analyses := section_analyses a;
     quality_scores := quality_scores a;
     document_stats := document_stats a |}.

(** The rule-based predictions listed category by category. *)
Definition rule_based_entries (a : analysis_dict) : list (string * risk_dict) :=
  map (fun c => (c, _rule_based_risk c a)) risk_categories.

(** The number of occurrences of a section's quality indicators. *)
Definition quality_count (text section_name : string) : Z :=
  count_terms (lower text) (get (lookup section_name quality_indicators) []).

(** The issues [analyze_section] reports, by keyword count. *)
Definition issues_by_count (section_name : string) (k : Z) : list string :=
  (if k <? 2
   then [("Low content quality in " ++ section_name)%string;
         ("Incomplete coverage of " ++ section_name ++ " requirements")%string]
   else [])
  ++ (if String.eqb section_name "Risk Analysis" && (k <? 3)
      then ["Insufficient risk identification and mitigation strategies"%string]
      else [])
  ++ (if String.eqb section_name "Means of Finance" && (k <? 3)
      then ["Budget details and cost estimates need improvement"%string]
      else []).

(** The catalogued sections with at least two keyword occurrences. *)
Definition covered_sections (text : string) : list string :=
  filter (fun n => 2 <=? keyword_count text n) (map fst section_weights).

(** The catalogued sections with fewer than two keyword occurrences. *)
Definition poor_sections (text : string) : list string :=
  filter (fun n => keyword_count text n <? 2) (map fst section_weights).

(** The completeness of each catalogued section, in catalog order. *)
Definition section_completeness_values (text : string) : list Z :=
  map (fun n => tier_completeness (keyword_count text n)) (map fst section_weights).

(** The quality metrics of the normal path, written out. *)
Definition normal_quality_scores (text : string) : quality_dict :=
  let found := Z.of_nat (List.length (covered_sections text)) in
  let values := section_completeness_values text in
  {| data_accuracy := round1 (inject_Z (assess_data_accuracy text));
     q_completeness :=
       round1 (inject_Z (fold_left Z.add values 0%Z)
               / inject_Z (Z.of_nat (List.length values)))%Q;
     technical_viability :=
       round1 (inject_Z (assess_technical_viability (analyzed_sections text)));
     compliance :=
       round1 (round1 (inject_Z found
                       / inject_Z (Z.of_nat (List.length section_weights))
                       * 100)%Q);
     budget_realism := round1 (inject_Z (assess_budget_realism text)) |}.

(** The categories whose result has level High, in dictionary order. *)
Definition high_categories (preds : list (string * risk_dict)) : list string :=
  map fst (filter (fun e => match level (snd e) with
                            | Some High => true
                            | _ => false
                            end) preds).




(** The recommendation for a section scored below 50. *)
Definition urgent_recommendation (section_name : string) : recommendation :=
  {| priority := "High";
     category := section_name;
     recommendation_text :=
       ("Improve " ++ section_name ++ " section to meet MDoNER standards")%string |}.

(* ================================================================== *)
(** ** Properties of the primitives *)
(* ================================================================== *)

Section Rounding.

Lemma round_half_even_near (x : Q) :
  (inject_Z (round_half_even x) - (1 # 2) <= x
   /\ x <= inject_Z (round_half_even x) + (1 # 2))%Q.
Proof.
  unfold round_half_even.
  pose proof (Qfloor_le x) as Hlo.
  pose proof (Qlt_floor x) as Hhi.
  rewrite inject_Z_plus in Hhi. change (inject_Z 1) with 1%Q in Hhi.
  destruct (Qcompare_spec (x - inject_Z (Qfloor x)) (1 # 2)) as [He | Hl | Hg].
  - destruct (Z.even (Qfloor x)); rewrite ?inject_Z_plus;
      change (inject_Z 1) with 1%Q; split; lra.
  - split; lra.
  - rewrite inject_Z_plus. change (inject_Z 1) with 1%Q. split; lra.
Qed.

Lemma round_half_even_comp (x y : Q) :
  (x == y)%Q -> round_half_even x = round_half_even y.
Proof.
  intros E. unfold round_half_even.
  rewrite (Qfloor_comp _ _ E).
  assert (C : (x - inject_Z (Qfloor y) ?= 1 # 2)%Q
              = (y - inject_Z (Qfloor y) ?= 1 # 2)%Q).
  { apply Qcompare_comp; [rewrite E; reflexivity | reflexivity]. }
  rewrite C. reflexivity.
Qed.

Lemma round_half_even_Z (n : Z) : round_half_even (inject_Z n) = n.
Proof.
  unfold round_half_even. rewrite Qfloor_Z.
  destruct (Qcompare_spec (inject_Z n - inject_Z n) (1 # 2)) as [He | Hl | Hg];
    [exfalso; lra | reflexivity | exfalso; lra].
Qed.

Lemma round_half_even_lower (a : Z) (x : Q) :
  (inject_Z a <= x)%Q -> a <= round_half_even x.
Proof.
  intros H. destruct (round_half_even_near x) as [_ Hx].
  assert (L : (inject_Z a < inject_Z (round_half_even x + 1))%Q)
    by (rewrite inject_Z_plus; change (inject_Z 1) with 1%Q; lra).
  rewrite <- Zlt_Qlt in L. lia.
Qed.

Lemma round_half_even_upper (b : Z) (x : Q) :
  (x <= inject_Z b)%Q -> round_half_even x <= b.
Proof.
  intros H. destruct (round_half_even_near x) as [Hx _].
  assert (L : (inject_Z (round_half_even x) < inject_Z (b + 1))%Q)
    by (rewrite inject_Z_plus; change (inject_Z 1) with 1%Q; lra).
  rewrite <- Zlt_Qlt in L. lia.
Qed.

Lemma Qmake10 (z : Z) : (z # 10 == inject_Z z * (1 # 10))%Q.
Proof. unfold Qeq, Qmult, inject_Z; simpl. lia. Qed.


Lemma round1_comp (x y : Q) : (x == y)%Q -> round1 x = round1 y.
Proof.
  intros E. unfold round1.
  rewrite (round_half_even_comp (x * 10) (y * 10)); [reflexivity |].
  rewrite E. reflexivity.
Qed.

(** A value with one decimal is left alone. *)
Lemma round1_tenths (z : Z) (x : Q) : (x == z # 10)%Q -> (round1 x == x)%Q.
Proof.
  intros E. unfold round1.
  rewrite (round_half_even_comp (x * 10) (inject_Z z)).
  - rewrite round_half_even_Z. symmetry. exact E.
  - rewrite E, Qmake10. field.
Qed.

Lemma round1_Z (n : Z) : (round1 (inject_Z n) == inject_Z n)%Q.
Proof.
  apply (round1_tenths (n * 10)).
  unfold Qeq, inject_Z; simpl. lia.
Qed.

Lemma round1_range (a b : Z) (x : Q) :
  (inject_Z a <= x <= inject_Z b)%Q ->
  (inject_Z a <= round1 x <= inject_Z b)%Q.
Proof.
  intros [Ha Hb]. unfold round1. rewrite Qmake10.
  assert (L : a * 10 <= round_half_even (x * 10)).
  { apply round_half_even_lower. rewrite inject_Z_mult.
    change (inject_Z 10) with 10%Q. lra. }
  assert (U : round_half_even (x * 10) <= b * 10).
  { apply round_half_even_upper. rewrite inject_Z_mult.
    change (inject_Z 10) with 10%Q. lra. }
  rewrite Zle_Qle, inject_Z_mult in L, U.
  change (inject_Z 10) with 10%Q in L, U.
  split; lra.
Qed.

Lemma Qleb_true (x y : Q) : Qleb x y = true <-> (x <= y)%Q.
Proof. unfold Qleb. apply Qle_bool_iff. Qed.

Lemma Qleb_false (x y : Q) : Qleb x y = false <-> (y < x)%Q.
Proof.
  unfold Qleb. split; intros H.
  - apply Qnot_le_lt. intros L. apply Qle_bool_iff in L. congruence.
  - destruct (Qle_bool x y) eqn:E; [| reflexivity].
    apply Qle_bool_iff in E. lra.
Qed.

Lemma Qltb_true (x y : Q) : Qltb x y = true <-> (x < y)%Q.
Proof.
  unfold Qltb. rewrite negb_true_iff. apply (Qleb_false y x).
Qed.

Lemma Qltb_false (x y : Q) : Qltb x y = false <-> (y <= x)%Q.
Proof.
  unfold Qltb. rewrite negb_false_iff. apply (Qleb_true y x).
Qed.

End Rounding.

(* ================================================================== *)
(** ** Section scoring ([analyze_section]) *)
(* ================================================================== *)

Section SectionScoring.

Lemma count_terms_acc (text : string) (terms : list string) (a : Z) :
  fold_left (fun acc term => acc + count text term) terms a
  = a + fold_right Z.add 0 (map (count text) terms).
Proof.
  revert a. induction terms as [| t ts IH]; intros a; simpl.
  - lia.
  - rewrite IH. lia.
Qed.

(** The keyword count is the sum of the per-keyword occurrence counts. *)
Lemma count_terms_sum (text : string) (terms : list string) :
  count_terms text terms = fold_right Z.add 0 (map (count text) terms).
Proof. unfold count_terms. rewrite count_terms_acc. lia. Qed.

Lemma count_from_nonneg (sub : string) (s : string) (skip : nat) :
  0 <= count_from sub skip s.
Proof.
  revert skip. induction s as [| c s IH]; intros skip; cbn [count_from].
  - lia.
  - destruct skip as [| k].
    + destruct (prefix sub (String c s)).
      * specialize (IH (String.length sub - 1)%nat). lia.
      * apply IH.
    + apply IH.
Qed.

Lemma count_terms_nonneg (text : string) (terms : list string) :
  0 <= count_terms text terms.
Proof.
  rewrite count_terms_sum.
  induction terms as [| t ts IH]; simpl; [lia |].
  pose proof (count_from_nonneg t text 0). unfold count at 1. lia.
Qed.

Lemma lower_ascii_idem (c : ascii) : lower_ascii (lower_ascii c) = lower_ascii c.
Proof.
  destruct c as [[] [] [] [] [] [] [] []]; reflexivity.
Qed.

Lemma lower_idem (s : string) : lower (lower s) = lower s.
Proof.
  induction s as [| c s IH]; simpl; [reflexivity |].
  rewrite lower_ascii_idem, IH. reflexivity.
Qed.


Lemma keyword_count_nonneg (text section_name : string) :
  0 <= keyword_count text section_name.
Proof. unfold keyword_count. apply count_terms_nonneg. Qed.

Lemma analyze_section_fields (text section_name : string) :
  let k := keyword_count text section_name in
  score (analyze_section text section_name) = Some (Z.min 100 (tier_score k))
  /\ completeness (analyze_section text section_name)
     = Some (Z.min 100 (tier_completeness k))
  /\ keyword_matches (analyze_section text section_name) = Some k.
Proof.
  intros k. unfold analyze_section, tier_score, tier_completeness. fold k.
  destruct (5 <=? k); [| destruct (2 <=? k)];
    cbn [score completeness keyword_matches];
    (repeat split; f_equal; lia).
Qed.

Lemma tier_score_range (k : Z) : 30 <= tier_score k <= 90.
Proof.
  unfold tier_score.
  destruct (Z.leb_spec 5 k); [lia |].
  destruct (Z.leb_spec 2 k); lia.
Qed.

Lemma tier_completeness_range (k : Z) : 20 <= tier_completeness k <= 95.
Proof.
  unfold tier_completeness.
  destruct (Z.leb_spec 5 k); [lia |].
  destruct (Z.leb_spec 2 k); lia.
Qed.

Lemma analyze_section_score (text section_name : string) :
  score (analyze_section text section_name)
  = Some (tier_score (keyword_count text section_name)).
Proof.
  destruct (analyze_section_fields text section_name) as [H _].
  rewrite H. f_equal.
  pose proof (tier_score_range (keyword_count text section_name)). lia.
Qed.

Lemma analyze_section_completeness (text section_name : string) :
  completeness (analyze_section text section_name)
  = Some (tier_completeness (keyword_count text section_name)).
Proof.
  destruct (analyze_section_fields text section_name) as [_ [H _]].
  rewrite H. f_equal.
  pose proof (tier_completeness_range (keyword_count text section_name)). lia.
Qed.


(** [str.count] resumes after the end of a match: occurrences that overlap
    an earlier match are not counted, and capitals match. *)
Example count_examples :
  count "targetarget" "target" = 1
  /\ count "risk, risks and at-risk" "risk" = 3
  /\ keyword_count "Budget BUDGET budget" "Means of Finance" = 3.
Proof. vm_compute. repeat split. Qed.

(** Scenario C on a concrete text: one keyword occurrence. *)
Example analyze_section_one_keyword :
  let r := analyze_section "Only one RISK is named here." "Risk Analysis" in
  keyword_matches r = Some 1 /\ score r = Some 30 /\ completeness r = Some 20.
Proof. vm_compute. repeat split. Qed.

(** Scenario B on a concrete text: six keyword occurrences. *)
Example analyze_section_six_keywords :
  let r := analyze_section
             "Risk, risk, RISK; threat and Threat: a contingency."
             "Risk Analysis" in
  keyword_matches r = Some 6 /\ score r = Some 78 /\ completeness r = Some 82.
Proof. vm_compute. repeat split. Qed.

End SectionScoring.

(* ================================================================== *)
(** ** Rule-based risk ([_rule_based_risk]) *)
(* ================================================================== *)

Section RuleBasedRisk.

Ltac eval_string_tests :=
  repeat match goal with
         | |- context [String.eqb ?a ?b] =>
             let v := eval vm_compute in (String.eqb a b) in
             change (String.eqb a b) with v
         end;
  cbv iota.









Lemma clamp_15_85 (x : Q) : (15 <= Qmin 85 (Qmax 15 x) <= 85)%Q.
Proof.
  split.
  - apply Q.min_glb; [lra | apply Q.le_max_l].
  - apply Q.le_min_l.
Qed.

Lemma level_of_spec (p : Q) :
  ((60 <= p)%Q -> level_of p = High)
  /\ ((40 <= p < 60)%Q -> level_of p = Medium)
  /\ ((p < 40)%Q -> level_of p = Low).
Proof.
  unfold level_of.
  split; [| split].
  - intros H. apply Qleb_true in H. rewrite H. reflexivity.
  - intros [H1 H2]. apply Qleb_true in H1. apply Qleb_false in H2.
    rewrite H2, H1. reflexivity.
  - intros H.
    assert (H60 : Qleb 60 p = false) by (apply Qleb_false; lra).
    apply Qleb_false in H. rewrite H60, H. reflexivity.
Qed.

(** The rule-based result of a catalogued category, unfolded. *)
Lemma rule_based_risk_unfold (a : analysis_dict)
    (cat sec : string) (dflt : Z) (w : Q) :
  In (cat, sec, dflt, w) risk_drivers ->
  _rule_based_risk cat a
  = let p :=
      Qmin 85
        (Qmax 15
           (Qmax 0 (100 - get (overall_score a) 75)
            + (100 - inject_Z (section_score (get (section_analyses a) []) sec dflt))
              * w))%Q in
    {| probability := round1 p;
       level := Some (level_of p);
       severity := level_of p;
       primary_factors := _identify_risk_factors cat a;
       mitigation_suggestions := _get_mitigation_suggestions cat |}.
Proof.
  intros H. simpl in H.
  repeat (destruct H as [H | H];
          [injection H as <- <- <- <-; unfold _rule_based_risk;
           eval_string_tests; reflexivity |]).
  contradiction.
Qed.



End RuleBasedRisk.

(* ================================================================== *)
(** ** Overall risk ([_calculate_overall_risk]) *)
(* ================================================================== *)

Section OverallRisk.

Lemma count_level_spec (l : risk_level) (preds : list (string * risk_dict)) :
  forall levels,
    map (fun e => level (snd e)) preds = map Some levels ->
    count_level l preds = Returns (tally l levels).
Proof.
  induction preds as [| [name risk] rest IH]; intros levels H.
  - destruct levels; [reflexivity | discriminate].
  - destruct levels as [| lv lvs]; [discriminate |].
    cbn [map snd] in H. injection H as Hlv Hrest.
    cbn [count_level]. rewrite Hlv. cbn [getitem obind].
    rewrite (IH lvs Hrest). cbn [obind].
    unfold tally. cbn [filter].
    destruct (risk_level_eqb lv l); cbn [List.length]; f_equal; lia.
Qed.

Lemma tally_total (levels : list risk_level) :
  tally High levels + tally Medium levels + tally Low levels
  = Z.of_nat (List.length levels).
Proof.
  unfold tally. induction levels as [| lv lvs IH]; [reflexivity |].
  cbn [filter]. destruct lv; cbn [risk_level_eqb List.length]; lia.
Qed.

Lemma tally_nonneg (l : risk_level) (levels : list risk_level) :
  0 <= tally l levels.
Proof. unfold tally. lia. Qed.

(** C5. For five per-category results of which [h] are High, [m] Medium and
    [l] Low, [_calculate_overall_risk] returns (it does not raise) the three
    counts, the score [round(100 * weighted / 3, 1)] and the level High when
    [weighted >= 2.5], Medium when [1.5 <= weighted < 2.5] and Low below,
    where [weighted = (3h + 2m + l) / 5]. *)
Theorem overall_risk_formula
    (preds : list (string * risk_dict)) (levels : list risk_level) :
  map (fun e => level (snd e)) preds = map Some levels ->
  List.length preds = 5%nat ->
  let h := tally High levels in
  let m := tally Medium levels in
  let l := tally Low levels in
  let weighted := (inject_Z (3 * h + 2 * m + l) / 5)%Q in
  h + m + l = 5
  /\ exists o,
      _calculate_overall_risk preds = Returns o
      /\ overall_risk_score o = round1 (100 * weighted / 3)%Q
      /\ ((25 # 10 <= weighted)%Q -> overall_level o = High)
      /\ ((15 # 10 <= weighted < 25 # 10)%Q -> overall_level o = Medium)
      /\ ((weighted < 15 # 10)%Q -> overall_level o = Low)
      /\ high_risk_count o = Some h
      /\ medium_risk_count o = Some m
      /\ low_risk_count o = Some l.
Proof.
  intros Hlv Hlen h m l weighted.
  assert (Hsum : h + m + l = 5).
  { unfold h, m, l. rewrite tally_total.
    rewrite <- (length_map Some levels), <- Hlv, length_map, Hlen.
    reflexivity. }
  split; [exact Hsum |].
  unfold _calculate_overall_risk.
  rewrite (count_level_spec High preds levels Hlv),
          (count_level_spec Medium preds levels Hlv),
          (count_level_spec Low preds levels Hlv).
  cbn [obind]. rewrite Hlen.
  change (Z.of_nat 5 =? 0) with false. cbv iota.
  fold h m l.
  set (code_weighted := (inject_Z (h * 3 + m * 2 + l * 1) / inject_Z (Z.of_nat 5))%Q).
  assert (Hw : (code_weighted == weighted)%Q).
  { unfold code_weighted, weighted.
    replace (h * 3 + m * 2 + l * 1) with (3 * h + 2 * m + l) by lia.
    reflexivity. }
  eexists. split; [reflexivity |].
  cbn [overall_risk_score overall_level high_risk_count medium_risk_count
       low_risk_count].
  split.
  { apply round1_comp. rewrite Hw. field. }
  split.
  { intros H. rewrite <- Hw in H. apply Qleb_true in H. rewrite H. reflexivity. }
  split.
  { intros [H1 H2]. rewrite <- Hw in H1, H2.
    apply Qleb_true in H1. apply Qleb_false in H2.
    rewrite H2, H1. reflexivity. }
  split.
  { intros H. rewrite <- Hw in H.
    assert (H25 : Qleb (25 # 10) code_weighted = false)
      by (apply Qleb_false; lra).
    apply Qleb_false in H. rewrite H25, H. reflexivity. }
  repeat split.
Qed.

(** Scenario E through the theorem: four High and one Low give weighted 2.6,
    level High and score 86.7. *)
Lemma overall_risk_scenario_e :
  exists o,
    _calculate_overall_risk scenario_e = Returns o
    /\ overall_level o = High
    /\ (overall_risk_score o == 867 # 10)%Q
    /\ high_risk_count o = Some 4
    /\ medium_risk_count o = Some 0
    /\ low_risk_count o = Some 1.
Proof.
  destruct (overall_risk_formula scenario_e [High; High; Low; High; High]
              eq_refl eq_refl)
    as (_ & o & Ho & Hs & HH & _ & _ & Hh & Hm & Hl).
  exists o. split; [exact Ho |].
  split; [apply HH; vm_compute; discriminate |].
  split; [rewrite Hs; vm_compute; reflexivity |].
  repeat split; assumption.
Defined.

End OverallRisk.

(* ================================================================== *)
(** ** Readability ([calculate_readability]) *)
(* ================================================================== *)

Section Readability.

(** C4 (as the code has it). The readability score is 70 when the toolkit is
    unavailable or the tokenizer raises, 50 when the tokenizer finds no
    sentence, and otherwise derived from the average sentence length
    [words / sentences]: below 15 gives 90, from 15 to below 20 gives 75,
    from 20 to below 25 gives 60, and 25 or more gives 45. *)
Theorem readability_cases (rt : runtime) (text : string) :
  (NLP_AVAILABLE rt = false -> calculate_readability rt text = 70%Q)
  /\ (forall e, NLP_AVAILABLE rt = true -> textblob rt text = Raises e ->
      calculate_readability rt text = 70%Q)
  /\ (forall words, NLP_AVAILABLE rt = true ->
      textblob rt text = Returns (0, words) ->
      calculate_readability rt text = 50%Q)
  /\ (forall sentences words,
      NLP_AVAILABLE rt = true ->
      textblob rt text = Returns (sentences, words) ->
      sentences <> 0 ->
      let avg := (inject_Z words / inject_Z sentences)%Q in
      ((avg < 15)%Q -> calculate_readability rt text = 90%Q)
      /\ ((15 <= avg < 20)%Q -> calculate_readability rt text = 75%Q)
      /\ ((20 <= avg < 25)%Q -> calculate_readability rt text = 60%Q)
      /\ ((25 <= avg)%Q -> calculate_readability rt text = 45%Q)).
Proof.
  unfold calculate_readability.
  split; [intros ->; reflexivity |].
  split; [intros e -> ->; reflexivity |].
  split; [intros words -> ->; reflexivity |].
  intros sentences words -> -> Hs. cbn [negb].
  destruct (Z.eqb_spec sentences 0) as [E | _]; [contradiction |].
  set (avg := (inject_Z words / inject_Z sentences)%Q).
  split; [| split; [| split]].
  - intros H. apply Qltb_true in H. rewrite H. reflexivity.
  - intros [H1 H2]. apply Qltb_false in H1. apply Qltb_true in H2.
    rewrite H1, H2. reflexivity.
  - intros [H1 H2].
    assert (H15 : Qltb avg 15 = false) by (apply Qltb_false; lra).
    apply Qltb_false in H1. apply Qltb_true in H2.
    rewrite H15, H1, H2. reflexivity.
  - intros H.
    assert (H15 : Qltb avg 15 = false) by (apply Qltb_false; lra).
    assert (H20 : Qltb avg 20 = false) by (apply Qltb_false; lra).
    apply Qltb_false in H. rewrite H15, H20, H. reflexivity.
Qed.

(** With the toolkit available and a text without any sentence (the empty
    text), the score is 50 and not the 70 of the fallback. *)
Lemma readability_no_sentence_is_50 :
  NLP_AVAILABLE nlp_runtime = true
  /\ textblob nlp_runtime "" = Returns (0, 0)
  /\ calculate_readability nlp_runtime "" = 50%Q
  /\ ~ (calculate_readability nlp_runtime "" == 70)%Q.
Proof.
  repeat split. vm_compute. discriminate.
Qed.

End Readability.

(* ================================================================== *)
(** ** Insertion-ordered dictionaries *)
(* ================================================================== *)

Section Dictionaries.

Context {V : Type}.

Lemma lookup_app_none (key : string) (d1 d2 : list (string * V)) :
  lookup key d1 = None -> lookup key (d1 ++ d2) = lookup key d2.
Proof.
  induction d1 as [| [k v] d1 IH]; cbn [lookup app]; [reflexivity |].
  destruct (String.eqb k key); [discriminate | exact IH].
Qed.

Lemma lookup_app_fresh (key k : string) (v : V) (d : list (string * V)) :
  k <> key -> lookup key d = None -> lookup key (d ++ [(k, v)]) = None.
Proof.
  intros Hk Hd. rewrite lookup_app_none by exact Hd.
  cbn [lookup]. destruct (String.eqb_spec k key); [contradiction | reflexivity].
Qed.

(** A new key goes to the end of the dictionary. *)
Lemma setitem_fresh (key : string) (v : V) (d : list (string * V)) :
  lookup key d = None -> setitem key v d = d ++ [(key, v)].
Proof.
  induction d as [| [k x] d IH]; cbn [lookup setitem app]; [reflexivity |].
  destruct (String.eqb k key); [discriminate |].
  intros H. rewrite (IH H). reflexivity.
Qed.

Lemma lookup_nodup (key : string) (v : V) (d : list (string * V)) :
  NoDup (map fst d) -> In (key, v) d -> lookup key d = Some v.
Proof.
  induction d as [| [k x] d IH]; intros Hnd Hin; [contradiction |].
  cbn [map fst] in Hnd. inversion Hnd as [| ? ? Hk Hd]; subst.
  cbn [lookup]. destruct Hin as [E | Hin].
  - injection E as -> ->. rewrite String.eqb_refl. reflexivity.
  - destruct (String.eqb_spec k key) as [-> | _].
    + exfalso. apply Hk. apply (in_map fst) in Hin. exact Hin.
    + apply IH; assumption.
Qed.

(** Filling a dictionary key by key, over distinct new keys, lists the
    entries in the order of the keys. *)
Lemma fold_setitem_fresh (f : string -> V) (keys : list string) :
  forall acc,
    NoDup keys ->
    (forall k, In k keys -> lookup k acc = None) ->
    fold_left (fun d k => setitem k (f k) d) keys acc
    = acc ++ map (fun k => (k, f k)) keys.
Proof.
  induction keys as [| k ks IH]; intros acc Hnd Hfresh; cbn [fold_left map].
  - rewrite app_nil_r. reflexivity.
  - inversion Hnd as [| ? ? Hk Hks]; subst.
    rewrite setitem_fresh by (apply Hfresh; left; reflexivity).
    rewrite IH.
    + rewrite <- app_assoc. reflexivity.
    + exact Hks.
    + intros k' Hk'. apply lookup_app_fresh.
      * intros ->. contradiction.
      * apply Hfresh. right. exact Hk'.
Qed.

End Dictionaries.

Lemma section_names_nodup : NoDup (map fst section_weights).
Proof.
  cbn [map fst section_weights].
  repeat (constructor;
          [cbn [In]; intros H;
           repeat (destruct H as [H | H]; [discriminate H |]); exact H |]).
  constructor.
Qed.

Lemma risk_categories_nodup : NoDup risk_categories.
Proof.
  unfold risk_categories.
  repeat (constructor;
          [cbn [In]; intros H;
           repeat (destruct H as [H | H]; [discriminate H |]); exact H |]).
  constructor.
Qed.

Lemma section_weights_total :
  fold_right Z.add 0 (map snd section_weights) = 100.
Proof. reflexivity. Qed.

(* ================================================================== *)
(** ** The normal path of [analyze_dpr] *)
(* ================================================================== *)

Section NormalAnalysis.

Lemma score_of_analyze_section (text name : string) :
  score_of (analyze_section text name)
  = inject_Z (tier_score (keyword_count text name)).
Proof. unfold score_of. rewrite analyze_section_score. reflexivity. Qed.

Lemma score_sections_entries (text : string) (entries : list (string * Z)) :
  forall acc total,
    NoDup (map fst entries) ->
    (forall n w, In (n, w) entries -> lookup n section_weights = Some w) ->
    (forall n, In n (map fst entries) -> lookup n acc = None) ->
    exists total',
      score_sections text (map fst entries) acc total
      = Returns (acc ++ map (fun nw => (fst nw, analyze_section text (fst nw)))
                            entries,
                 total')
      /\ (total' ==
          total + fold_right Qplus 0
                    (map (fun nw => score_of (analyze_section text (fst nw))
                                    * (inject_Z (snd nw) / 100))
                         entries))%Q.
Proof.
  induction entries as [| [n w] rest IH]; intros acc total Hnd Hw Hfresh.
  - exists total. cbn [map score_sections fold_right].
    rewrite app_nil_r. split; [reflexivity | ring].
  - cbn [map fst snd] in Hnd |- *.
    inversion Hnd as [| ? ? Hn Hrest]; subst.
    cbn [score_sections].
    rewrite (Hw n w (or_introl eq_refl)).
    rewrite analyze_section_score. cbn [getitem obind].
    rewrite setitem_fresh by (apply Hfresh; left; reflexivity).
    destruct (IH (acc ++ [(n, analyze_section text n)])
                 (total + inject_Z (tier_score (keyword_count text n))
                          * (inject_Z w / 100))%Q
                 Hrest)
      as (total' & Heq & Htot).
    + intros n' w' Hin. apply Hw. right. exact Hin.
    + intros n' Hin. apply lookup_app_fresh.
      * intros ->. contradiction.
      * apply Hfresh. right. exact Hin.
    + exists total'. split.
      * rewrite Heq, <- app_assoc. reflexivity.
      * rewrite Htot. cbn [fold_right]. rewrite score_of_analyze_section. ring.
Qed.

Lemma score_sections_catalog (text : string) :
  exists total,
    score_sections text (map fst section_weights) [] 0
    = Returns (analyzed_sections text, total)
    /\ (total == weighted_sum (fun n => score_of (analyze_section text n)))%Q.
Proof.
  destruct (score_sections_entries text section_weights [] 0
              section_names_nodup)
    as (total & Heq & Htot).
  - intros n w Hin. apply lookup_nodup; [exact section_names_nodup | exact Hin].
  - intros n _. reflexivity.
  - exists total. split; [exact Heq |].
    rewrite Htot. unfold weighted_sum. ring.
Qed.

Lemma count_complete_analyzed (bound : Z) (text : string)
    (entries : list (string * Z)) :
  exists n,
    count_complete bound
      (map (fun nw => (fst nw, analyze_section text (fst nw))) entries)
    = Returns n.
Proof.
  induction entries as [| [name w] rest [n IH]]; cbn [map count_complete fst].
  - exists 0. reflexivity.
  - rewrite analyze_section_completeness. cbn [getitem obind].
    rewrite IH. cbn [obind]. eexists. reflexivity.
Qed.

Lemma completeness_values_analyzed (text : string)
    (entries : list (string * Z)) :
  exists values,
    completeness_values
      (map (fun nw => (fst nw, analyze_section text (fst nw))) entries)
    = Returns values.
Proof.
  induction entries as [| [name w] rest [vs IH]];
    cbn [map completeness_values fst].
  - exists []. reflexivity.
  - rewrite analyze_section_completeness. cbn [getitem obind].
    rewrite IH. cbn [obind]. eexists. reflexivity.
Qed.

Lemma calculate_quality_scores_returns (rt : runtime) (text : string) :
  np_bound rt = true ->
  exists q,
    calculate_quality_scores rt text (analyzed_sections text) = Returns q.
Proof.
  intros Hnp. unfold calculate_quality_scores, analyzed_sections.
  destruct (completeness_values_analyzed text section_weights) as [vs ->].
  cbn [obind]. unfold np_mean. rewrite Hnp. cbn [obind].
  unfold assess_compliance.
  destruct (count_complete_analyzed 40 text section_weights) as [n ->].
  cbn [obind]. eexists. reflexivity.
Qed.

(** With [np] bound the [try] block of [analyze_dpr] runs to its end: the
    result is fixed by the text and the file name, except for the clock
    reading stored in [analyzed_at]. *)
Lemma analyze_dpr_normal (rt : runtime) (text filename : string) :
  np_bound rt = true ->
  exists total found q,
    (total == weighted_sum (fun n => score_of (analyze_section text n)))%Q
    /\ forall w,
        analyze_dpr rt text filename w
        = (Returns
             {| DPRAnalyzer.filename := Some filename;
                analyzed_at := Some (ticks w 0%nat);
                overall_score := Some (round1 total);
                completeness_percentage :=
                  Some (round1 (inject_Z found
                                / inject_Z (Z.of_nat (List.length section_weights))
                                * 100)%Q);
                sections_found := Some found;
                total_sections := Some (Z.of_nat (List.length section_weights));
                section_analyses := Some (analyzed_sections text);
                quality_scores := Some q;
                document_stats :=
                  Some {| word_count := len_split text;
                          sentence_count := len_re_split text;
                          readability :=
                            if NLP_AVAILABLE rt
                            then calculate_readability rt text
                            else 70 |} |},
           {| draws := draws w; ticks := fun n => ticks w (S n) |}).
Proof.
  intros Hnp.
  destruct (score_sections_catalog text) as (total & Hscore & Htotal).
  destruct (count_complete_analyzed 30 text section_weights) as [found Hfound].
  destruct (calculate_quality_scores_returns rt text Hnp) as [q Hq].
  exists total, found, q. split; [exact Htotal |].
  intros w. unfold analyze_dpr, try_except, analyze_dpr_try, bind, lift.
  rewrite Hscore. fold (analyzed_sections text) in Hfound.
  rewrite Hfound, Hq. reflexivity.
Qed.

End NormalAnalysis.

(* ================================================================== *)
(** ** The overall score as a weighted average *)
(* ================================================================== *)

Section WeightedAverage.

Ltac weights_as_fractions :=
  unfold weighted_sum, section_weights;
  cbn [map fold_right fst snd];
  repeat match goal with
         | |- context [(inject_Z ?w / 100)%Q] =>
             let v := eval vm_compute in (inject_Z w / 100)%Q in
             change (inject_Z w / 100)%Q with v
         end.

Lemma weighted_sum_range (f : string -> Q) (lo hi : Q) :
  (forall n, lo <= f n <= hi)%Q ->
  (lo <= weighted_sum f <= hi)%Q.
Proof.
  intros H. weights_as_fractions.
  pose proof (H "Context/Background"%string).
  pose proof (H "Problems Addressed"%string).
  pose proof (H "Project Objectives"%string).
  pose proof (H "Technology Issues"%string).
  pose proof (H "Management Arrangements"%string).
  pose proof (H "Means of Finance"%string).
  pose proof (H "Time Frame"%string).
  pose proof (H "Target Beneficiaries"%string).
  pose proof (H "Legal Framework"%string).
  pose proof (H "Risk Analysis"%string).
  split; lra.
Qed.

Lemma weighted_sum_uniform (s : Q) : (weighted_sum (fun _ => s) == s)%Q.
Proof. weights_as_fractions. lra. Qed.

Lemma weighted_terms_ext (f g : string -> Q) (entries : list (string * Z)) :
  (forall nw, In nw entries -> (f (fst nw) == g (fst nw))%Q) ->
  (fold_right Qplus 0
     (map (fun nw => f (fst nw) * (inject_Z (snd nw) / 100)) entries)
   == fold_right Qplus 0
        (map (fun nw => g (fst nw) * (inject_Z (snd nw) / 100)) entries))%Q.
Proof.
  induction entries as [| nw rest IH]; intros H; cbn [map fold_right].
  - reflexivity.
  - rewrite IH by (intros x Hx; apply H; right; exact Hx).
    rewrite (H nw (or_introl eq_refl)). reflexivity.
Qed.




End WeightedAverage.

(* ================================================================== *)
(** ** Sorting by key ([list.sort(key=...)]) *)
(* ================================================================== *)

Section SortByKey.

Context {A : Type} (key : A -> Z).

Lemma insert_by_perm (x : A) (l : list A) :
  Permutation (x :: l) (insert_by key x l).
Proof.
  induction l as [| y l IH]; cbn [insert_by]; [apply Permutation_refl |].
  destruct (key y <? key x); [| apply Permutation_refl].
  apply perm_trans with (y :: x :: l); [apply perm_swap |].
  apply perm_skip. exact IH.
Qed.

Lemma sort_by_perm (l : list A) : Permutation l (sort_by key l).
Proof.
  induction l as [| x l IH]; cbn [sort_by fold_right]; [apply perm_nil |].
  apply perm_trans with (x :: sort_by key l);
    [apply perm_skip; exact IH | apply insert_by_perm].
Qed.

Lemma insert_by_sorted (x : A) (l : list A) :
  StronglySorted (fun a b => key a <= key b) l ->
  StronglySorted (fun a b => key a <= key b) (insert_by key x l).
Proof.
  induction l as [| y l IH]; intros Hs; cbn [insert_by].
  - constructor; [constructor | constructor].
  - inversion Hs as [| ? ? Hl Hy]; subst.
    destruct (Z.ltb_spec (key y) (key x)) as [Hlt | Hge].
    + constructor; [apply IH; exact Hl |].
      apply Forall_forall. intros z Hz.
      apply (Permutation_in z (Permutation_sym (insert_by_perm x l))) in Hz.
      destruct Hz as [<- | Hz]; [lia |].
      rewrite Forall_forall in Hy. apply Hy. exact Hz.
    + constructor; [exact Hs |].
      constructor; [exact Hge |].
      apply Forall_forall. intros z Hz.
      rewrite Forall_forall in Hy. specialize (Hy z Hz). lia.
Qed.

Lemma sort_by_sorted (l : list A) :
  StronglySorted (fun a b => key a <= key b) (sort_by key l).
Proof.
  induction l as [| x l IH]; cbn [sort_by fold_right]; [constructor |].
  apply insert_by_sorted. exact IH.
Qed.

(** The sort is stable: the elements of any given key appear in the order
    they had before. *)
Lemma insert_by_stable (v : Z) (x : A) (l : list A) :
  filter (fun a => key a =? v) (insert_by key x l)
  = filter (fun a => key a =? v) (x :: l).
Proof.
  induction l as [| y l IH]; cbn [insert_by]; [reflexivity |].
  destruct (Z.ltb_spec (key y) (key x)) as [Hlt | Hge]; [| reflexivity].
  cbn [filter] in IH |- *. rewrite IH.
  destruct (Z.eqb_spec (key x) v) as [Ex | Nx];
    destruct (Z.eqb_spec (key y) v) as [Ey | Ny]; try reflexivity.
  lia.
Qed.

Lemma sort_by_stable (v : Z) (l : list A) :
  filter (fun a => key a =? v) (sort_by key l)
  = filter (fun a => key a =? v) l.
Proof.
  induction l as [| x l IH]; cbn [sort_by fold_right]; [reflexivity |].
  fold (sort_by key l). rewrite insert_by_stable.
  cbn [filter]. rewrite IH. reflexivity.
Qed.

Lemma sorted_prefix_least (n : nat) (l : list A) :
  StronglySorted (fun a b => key a <= key b) l ->
  forall a b, In a (firstn n l) -> In b (skipn n l) -> key a <= key b.
Proof.
  revert l. induction n as [| n IH]; intros l Hs a b Ha Hb.
  - contradiction.
  - destruct l as [| x l]; [contradiction |].
    inversion Hs as [| ? ? Hl Hx]; subst.
    cbn [firstn skipn] in Ha, Hb. destruct Ha as [<- | Ha].
    + rewrite Forall_forall in Hx. apply Hx.
      rewrite <- (firstn_skipn n l). apply in_or_app. right. exact Hb.
    + apply (IH l Hl); assumption.
Qed.

Lemma sorted_firstn (n : nat) (l : list A) :
  StronglySorted (fun a b => key a <= key b) l ->
  StronglySorted (fun a b => key a <= key b) (firstn n l).
Proof.
  revert l. induction n as [| n IH]; intros l Hs;
    [constructor |].
  destruct l as [| x l]; [constructor |].
  inversion Hs as [| ? ? Hl Hx]; subst. cbn [firstn].
  constructor; [apply IH; exact Hl |].
  apply Forall_forall. intros z Hz.
  rewrite Forall_forall in Hx. apply Hx.
  rewrite <- (firstn_skipn n l). apply in_or_app. left. exact Hz.
Qed.

End SortByKey.

(* ================================================================== *)
(** ** Recommendation synthesis ([generate_recommendations]) *)
(* ================================================================== *)

Section Recommendations.

Lemma scored_sections_keys (sections : list (string * section_dict)) :
  forall scored,
    scored_sections sections = Returns scored ->
    Forall2 (fun e se => fst e = fst se /\ score (snd e) = Some (snd se))
            sections scored.
Proof.
  induction sections as [| [name data] rest IH]; intros scored H.
  - injection H as <-. constructor.
  - cbn [scored_sections] in H.
    destruct (score data) as [s |] eqn:Es; [| discriminate].
    cbn [getitem obind] in H.
    destruct (scored_sections rest) as [others | e]; [| discriminate].
    cbn [obind] in H. injection H as <-.
    constructor; [split; [reflexivity | exact Es] | apply IH; reflexivity].
Qed.

(** C7. For an analysis record whose sections all carry a score,
    [generate_recommendations] returns, in this order: one recommendation
    for each of the at most three lowest-scored sections among those scored
    below 65, in ascending order of score (equal scores in catalog order),
    with priority High below 50 and Medium otherwise ([scored] lists the
    sections with their scores, in catalog order); then the High-priority
    Overall Quality entry when the overall score is below 70; then the
    Medium-priority Technical Feasibility entry when the Technology Issues
    score is below 70. The list has at most five entries, so the final
    truncation to five keeps all of them. *)
Theorem recommendations_synthesis
    (a : analysis_dict) (scored : list (string * Z)) :
  scored_sections (get (section_analyses a) []) = Returns scored ->
  let low := filter (fun e => snd e <? 65) scored in
  let sorted := sort_by snd low in
  let picked := firstn 3 sorted in
  let overall :=
    if Qltb (get (overall_score a) 0%Q) 70
    then [overall_quality_recommendation] else [] in
  let tech :=
    if section_score (get (section_analyses a) []) "Technology Issues" 0 <? 70
    then [technical_recommendation] else [] in
  let all := map section_recommendation picked ++ overall ++ tech in
  generate_recommendations a = Returns (firstn 5 all)
  /\ firstn 5 all = all
  /\ (List.length all <= 5)%nat
  /\ (List.length picked <= 3)%nat
  /\ Permutation low sorted
  /\ StronglySorted by_score sorted
  /\ StronglySorted by_score picked
  /\ (forall v, filter (fun e => snd e =? v) sorted
                = filter (fun e => snd e =? v) low)
  /\ (forall e, In e picked -> In e scored /\ snd e < 65)
  /\ (forall e e', In e picked -> In e' (skipn 3 sorted) -> snd e <= snd e')
  /\ (forall e, In e picked ->
        category (section_recommendation e) = fst e
        /\ (snd e < 50 -> priority (section_recommendation e) = "High"%string)
        /\ (50 <= snd e -> priority (section_recommendation e) = "Medium"%string))
  /\ priority overall_quality_recommendation = "High"%string
  /\ category overall_quality_recommendation = "Overall Quality"%string
  /\ priority technical_recommendation = "Medium"%string
  /\ category technical_recommendation = "Technical Feasibility"%string
  /\ Forall2 (fun e se => fst e = fst se /\ score (snd e) = Some (snd se))
             (get (section_analyses a) []) scored.
Proof.
  intros Hscored low sorted picked overall tech all.
  assert (Hpicked : (List.length picked <= 3)%nat)
    by (unfold picked; apply firstn_le_length).
  assert (Hlen : (List.length all <= 5)%nat).
  { unfold all. rewrite !length_app, length_map.
    assert (List.length overall <= 1)%nat
      by (unfold overall; destruct (Qltb _ _); cbn [List.length]; lia).
    assert (List.length tech <= 1)%nat
      by (unfold tech; destruct (_ <? _); cbn [List.length]; lia).
    lia. }
  assert (Hall : firstn 5 all = all) by (apply firstn_all2; exact Hlen).
  assert (Hsorted : StronglySorted by_score sorted)
    by (apply (sort_by_sorted snd)).
  split.
  { unfold generate_recommendations. rewrite Hscored. cbn [obind].
    subst all overall tech picked sorted low. unfold section_score.
    destruct (Qltb (get (overall_score a) 0%Q) 70);
      destruct (lookup "Technology Issues"%string (get (section_analyses a) []))
        as [d |];
      try destruct (get (score d) 0 <? 70);
      try change (0 <? 70) with true; cbv iota;
      rewrite <- ?app_assoc, ?app_nil_r; reflexivity. }
  split; [exact Hall |].
  split; [exact Hlen |].
  split; [exact Hpicked |].
  split; [apply sort_by_perm |].
  split; [exact Hsorted |].
  split; [apply (sorted_firstn snd); exact Hsorted |].
  split; [intros v; apply (sort_by_stable snd) |].
  split.
  { intros e He.
    assert (Hin : In e low).
    { apply (Permutation_in e (Permutation_sym (sort_by_perm snd low))).
      change (In e sorted).
      rewrite <- (firstn_skipn 3 sorted). apply in_or_app. left. exact He. }
    unfold low in Hin. apply filter_In in Hin. destruct Hin as [Hin Hlt].
    split; [exact Hin | apply Z.ltb_lt; exact Hlt]. }
  split.
  { intros e e' He He'. apply (sorted_prefix_least snd 3 sorted Hsorted e e' He He'). }
  split.
  { intros [name s] _. cbn [fst snd section_recommendation category priority].
    split; [reflexivity |].
    split; intros H; destruct (Z.ltb_spec s 50); try reflexivity; lia. }
  repeat split. apply scored_sections_keys. exact Hscored.
Qed.

(** The sample record through the theorem: the three worst of its four low
    sections, equal scores in their original order, then the overall and
    the technical recommendation. *)
Lemma recommendations_sample :
  exists recs,
    generate_recommendations sample_analysis = Returns recs
    /\ map (fun r => (priority r, category r)) recs
       = [ ("High", "Time Frame"); ("High", "Context/Background");
           ("High", "Risk Analysis"); ("High", "Overall Quality");
           ("Medium", "Technical Feasibility") ]%string.
Proof.
  destruct (recommendations_synthesis sample_analysis
              [ ("Context/Background", 40); ("Technology Issues", 60);
                ("Means of Finance", 90); ("Risk Analysis", 40);
                ("Time Frame", 30); ("Legal Framework", 65) ]%string
              eq_refl)
    as (Hrun & _).
  eexists. split; [exact Hrun |].
  vm_compute. reflexivity.
Defined.

End Recommendations.

(* ================================================================== *)
(** ** The fallback analysis ([generate_fallback_analysis]) *)
(* ================================================================== *)

Section FallbackAnalysis.

Lemma randint_range (low high : Z) (w : world) :
  low < high ->
  exists z w', randint low high w = (Returns z, w') /\ low <= z < high
               /\ ticks w' = ticks w.
Proof.
  intros H. unfold randint, bind, next_draw, ret.
  eexists. eexists. split; [reflexivity |].
  split; [| reflexivity].
  pose proof (Z.mod_pos_bound (Z.of_N (draws w 0%nat)) (high - low)). lia.
Qed.

Lemma Forall_setitem {V} (P : V -> Prop) (key : string) (v : V)
    (d : list (string * V)) :
  P v -> Forall (fun e => P (snd e)) d ->
  Forall (fun e => P (snd e)) (setitem key v d).
Proof.
  intros Hv. induction d as [| [k x] d IH]; intros Hd; cbn [setitem].
  - constructor; [exact Hv | constructor].
  - inversion Hd as [| ? ? Hx Hrest]; subst.
    destruct (String.eqb k key); constructor; auto.
Qed.

Lemma fallback_sections_spec (rt : runtime) (base_score : Z)
    (names : list string) :
  np_bound rt = true ->
  forall acc w,
    Forall (fun e => fallback_section base_score (snd e)) acc ->
    exists sections w',
      fallback_sections rt base_score names acc w = (Returns sections, w')
      /\ Forall (fun e => fallback_section base_score (snd e)) sections
      /\ ticks w' = ticks w.
Proof.
  intros Hnp. induction names as [| name rest IH]; intros acc w Hacc.
  - exists acc, w. repeat split. exact Hacc.
  - cbn [fallback_sections]. rewrite Hnp. cbn [negb].
    destruct (randint_range (-15) 16 w) as (j1 & w1 & E1 & R1 & T1); [lia |].
    destruct (randint_range (-10) 21 w1) as (j2 & w2 & E2 & R2 & T2); [lia |].
    destruct (randint_range (-12) 13 w2) as (j3 & w3 & E3 & R3 & T3); [lia |].
    unfold bind at 1. rewrite E1.
    unfold bind at 1. rewrite E2.
    unfold bind at 1. rewrite E3.
    destruct (IH (setitem name
                    {| score := Some (base_score + j1);
                       completeness := Some (base_score + j2);
                       quality := Some (base_score + j3);
                       keyword_matches := None;
                       issues := []; recommendations := [] |} acc) w3)
      as (sections & w' & E & HF & HT).
    + apply Forall_setitem; [| exact Hacc].
      unfold fallback_section. cbn [score completeness quality keyword_matches
                                    issues recommendations].
      repeat split; eexists; (split; [reflexivity | lia]).
    + exists sections, w'. split; [exact E |]. split; [exact HF |].
      congruence.
Qed.

(** The fallback analysis when [np] is bound: it returns for every text and
    every state of the random generator, with the base score
    [min(85, max(45, 40 + word_count // 100))], completeness percentage 75,
    and section entries within the jitter of the base score, none of which
    has the key [keyword_matches]. *)
Lemma fallback_analysis_shape (rt : runtime) (filename text : string) (w : world) :
  np_bound rt = true ->
  let base_score := Z.min 85 (Z.max 45 (40 + len_split text / 100)) in
  exists r sections,
    fst (generate_fallback_analysis rt filename text w) = Returns r
    /\ overall_score r = Some (inject_Z base_score)
    /\ 45 <= base_score <= 85
    /\ completeness_percentage r = Some 75%Q
    /\ analyzed_at r = Some (ticks w 0%nat)
    /\ section_analyses r = Some sections
    /\ Forall (fun e => fallback_section base_score (snd e)) sections.
Proof.
  intros Hnp base_score.
  destruct (fallback_sections_spec rt base_score (map fst section_weights)
              Hnp [] w (Forall_nil _))
    as (sections & w' & E & HF & HT).
  unfold generate_fallback_analysis. fold base_score.
  unfold bind at 1. rewrite E.
  unfold bind, now_isoformat, ret. cbn [fst].
  eexists. exists sections. split; [reflexivity |].
  cbn [overall_score completeness_percentage analyzed_at section_analyses].
  rewrite HT.
  repeat split; try assumption; unfold base_score; lia.
Qed.

(** Without [np] the handler of [analyze_dpr] fails the way the [try] block
    did, and the [NameError] reaches the caller. *)
Lemma analyze_dpr_without_numpy (rt : runtime) (text filename : string) (w : world) :
  np_bound rt = false ->
  analyze_dpr rt text filename w = (Raises (NameError "np"), w).
Proof.
  intros Hnp.
  destruct (score_sections_catalog text) as (total & Hscore & _).
  destruct (count_complete_analyzed 30 text section_weights) as [found Hfound].
  fold (analyzed_sections text) in Hfound.
  destruct (completeness_values_analyzed text section_weights) as [vs Hvs].
  fold (analyzed_sections text) in Hvs.
  unfold analyze_dpr, try_except, analyze_dpr_try, bind, lift.
  rewrite Hscore, Hfound.
  unfold calculate_quality_scores. rewrite Hvs. cbn [obind].
  unfold np_mean. rewrite Hnp. cbn [obind].
  unfold generate_fallback_analysis, bind.
  cbn [map fst section_weights fallback_sections]. rewrite Hnp.
  reflexivity.
Qed.

(** C3 (what the code does at the failing inputs). In a process where the
    import of [nltk] failed, [analyze_dpr] raises [NameError] to its caller
    instead of returning the fallback. Where the fallback does run, on a
    text of 4500 words its base score is 85, its completeness percentage is
    75, and the generator can draw a section completeness of 105; its
    section entries have no [keyword_matches] key. *)
Theorem fallback_analysis_violations :
  fst (analyze_dpr no_nlp_runtime "Detailed project report." "dpr.pdf" sample_world)
  = Raises (NameError "np")
  /\ exists r sections d,
      fst (generate_fallback_analysis nlp_runtime "dpr.pdf" long_text sample_world)
      = Returns r
      /\ len_split long_text = 4500
      /\ overall_score r = Some 85%Q
      /\ completeness_percentage r = Some 75%Q
      /\ section_analyses r = Some sections
      /\ lookup "Context/Background" sections = Some d
      /\ keyword_matches d = None
      /\ completeness d = Some 105
      /\ 100 < 105.
Proof.
  split.
  - rewrite analyze_dpr_without_numpy; reflexivity.
  - eexists. eexists. eexists.
    split; [vm_compute; reflexivity |].
    split; [vm_compute; reflexivity |].
    split; [reflexivity |].
    split; [reflexivity |].
    split; [reflexivity |].
    split; [reflexivity |].
    split; [reflexivity |].
    split; [reflexivity | lia].
Qed.

End FallbackAnalysis.

(* ================================================================== *)
(** ** Risk prediction and its fallback ([predict_risks]) *)
(* ================================================================== *)

Section RiskPrediction.

Lemma random_uniform_range (w : world) :
  exists q w',
    random_uniform 25 75 w = (Returns q, w')
    /\ (25 <= q <= 75)%Q /\ ticks w' = ticks w.
Proof.
  unfold random_uniform, random_random, bind, next_draw, ret.
  eexists. eexists. split; [reflexivity |]. split; [| reflexivity].
  set (r := draws w 0%nat).
  assert (Hu : (0 <= Z.of_N (r mod 2 ^ 53) # 2 ^ 53 <= 1)%Q).
  { pose proof (N.mod_lt r (2 ^ 53)%N) as Hlt.
    assert (Hr : 0 <= Z.of_N (r mod 2 ^ 53) < 9007199254740992).
    { split; [apply N2Z.is_nonneg |].
      change 9007199254740992 with (Z.of_N (2 ^ 53)%N).
      apply N2Z.inj_lt. apply Hlt. discriminate. }
    set (z := Z.of_N (r mod 2 ^ 53)) in *.
    unfold Qle. cbn [Qnum Qden].
    change (Z.pos (2 ^ 53)) with 9007199254740992. lia. }
  destruct Hu as [H0 H1]. split; lra.
Qed.

Lemma fallback_predictions_spec (categories : list string) :
  forall acc w,
    NoDup categories ->
    (forall c, In c categories -> lookup c acc = None) ->
    Forall (fun e => fallback_entry (snd e)) acc ->
    exists preds w',
      fallback_predictions categories acc w = (Returns preds, w')
      /\ Forall (fun e => fallback_entry (snd e)) preds
      /\ map fst preds = map fst acc ++ categories
      /\ ticks w' = ticks w.
Proof.
  induction categories as [| c rest IH]; intros acc w Hnd Hfresh Hacc.
  - exists acc, w. rewrite app_nil_r. repeat split. exact Hacc.
  - inversion Hnd as [| ? ? Hc Hrest]; subst.
    cbn [fallback_predictions].
    destruct (random_uniform_range w) as (q & w1 & E & Hq & Ht).
    unfold bind at 1. rewrite E.
    rewrite setitem_fresh by (apply Hfresh; left; reflexivity).
    destruct (IH (acc ++ [(c, {| probability := round1 q;
                                 level := Some (level_of q);
                                 severity := level_of q;
                                 primary_factors :=
                                   ["Analysis module error - using fallback assessment"%string];
                                 mitigation_suggestions :=
                                   ["Conduct detailed risk assessment manually"%string] |})])
                 w1 Hrest)
      as (preds & w' & Erun & HF & Hkeys & Ht').
    + intros c' Hc'. apply lookup_app_fresh.
      * intros ->. contradiction.
      * apply Hfresh. right. exact Hc'.
    + apply Forall_app. split; [exact Hacc |].
      constructor; [| constructor].
      unfold fallback_entry.
      cbn [snd probability primary_factors mitigation_suggestions level severity].
      split; [apply (round1_range 25 75); exact Hq | repeat split].
    + exists preds, w'. split; [exact Erun |]. split; [exact HF |].
      split; [| congruence].
      rewrite Hkeys, map_app, <- app_assoc. reflexivity.
Qed.

(** The fallback bundle is produced whatever the generator draws. *)
Lemma generate_fallback_risks_spec (w : world) :
  exists b w', _generate_fallback_risks w = (Returns b, w') /\ fallback_bundle b.
Proof.
  destruct (fallback_predictions_spec risk_categories [] w risk_categories_nodup)
    as (preds & w' & E & HF & Hkeys & _).
  - intros c _. reflexivity.
  - constructor.
  - unfold _generate_fallback_risks. unfold bind at 1. rewrite E.
    unfold bind, now_isoformat, ret.
    eexists. eexists. split; [reflexivity |].
    unfold fallback_bundle.
    cbn [risk_predictions overall_risk overall_level overall_risk_score risk_summary].
    repeat split; assumption.
Qed.

Lemma fold_left_pointwise {A B} (f g : A -> B -> A) (l : list B) (a : A) :
  (forall x y, f x y = g x y) -> fold_left f l a = fold_left g l a.
Proof.
  intros H. revert a. induction l as [| y l IH]; intros a; cbn [fold_left].
  - reflexivity.
  - rewrite H. apply IH.
Qed.

Lemma predict_with_rules_entries (a : analysis_dict) :
  _predict_with_rules a = rule_based_entries a.
Proof.
  unfold _predict_with_rules, rule_based_entries.
  rewrite (fold_setitem_fresh (fun c => _rule_based_risk c a) risk_categories []
             risk_categories_nodup); [reflexivity |].
  intros c _. reflexivity.
Qed.

(** Every stored entry is a dictionary without [predict_proba], so the model
    strategy ends in the rule-based result for each category. *)
Lemma predict_with_ml_is_rule_based
    (trained : list (string * model_entry)) (a : analysis_dict) :
  _predict_with_ml trained a = _predict_with_rules a.
Proof.
  unfold _predict_with_ml, _predict_with_rules.
  apply fold_left_pointwise. intros preds c.
  unfold predict_proba. destruct (lookup c trained); reflexivity.
Qed.

Lemma rule_based_levels (a : analysis_dict) (categories : list string) :
  map (fun e => level (snd e))
      (map (fun c => (c, _rule_based_risk c a)) categories)
  = map Some (map (fun c => severity (_rule_based_risk c a)) categories).
Proof.
  induction categories as [| c rest IH]; cbn [map]; [reflexivity |].
  rewrite IH. reflexivity.
Qed.

Lemma high_risk_names_returns (preds : list (string * risk_dict)) :
  forall levels,
    map (fun e => level (snd e)) preds = map Some levels ->
    exists names, high_risk_names preds = Returns names.
Proof.
  induction preds as [| [name risk] rest IH]; intros levels H.
  - exists []. reflexivity.
  - destruct levels as [| lv lvs]; [discriminate |].
    cbn [map snd] in H. injection H as Hlv Hrest.
    destruct (IH lvs Hrest) as [names Hn].
    cbn [high_risk_names]. rewrite Hlv, Hn. cbn [getitem obind].
    eexists. reflexivity.
Qed.

Lemma calculate_overall_risk_returns (preds : list (string * risk_dict))
    (levels : list risk_level) :
  map (fun e => level (snd e)) preds = map Some levels ->
  exists o, _calculate_overall_risk preds = Returns o.
Proof.
  intros H. unfold _calculate_overall_risk.
  rewrite (count_level_spec High preds levels H),
          (count_level_spec Medium preds levels H),
          (count_level_spec Low preds levels H).
  cbn [obind]. destruct (Z.of_nat (List.length preds) =? 0);
    eexists; reflexivity.
Qed.

Lemma generate_risk_summary_returns (preds : list (string * risk_dict))
    (levels : list risk_level) (o : overall_dict) :
  map (fun e => level (snd e)) preds = map Some levels ->
  exists s, _generate_risk_summary preds o = Returns s.
Proof.
  intros H. unfold _generate_risk_summary.
  destruct (high_risk_names_returns preds levels H) as [names ->].
  cbn [obind]. destruct names; [destruct (risk_level_eqb _ _) |];
    eexists; reflexivity.
Qed.

(** The [try] block of [predict_risks] always runs to its end, with the
    rule-based entry of each category, whichever strategy is selected. *)
Lemma predict_risks_try_returns (p : predictor) (a : analysis_dict) (w : world) :
  exists o s,
    predict_risks_try p a w
    = (Returns {| overall_risk := o;
                  risk_predictions := rule_based_entries a;
                  risk_summary := s;
                  generated_at := ticks w 0%nat |},
       after_tick w)
    /\ _calculate_overall_risk (rule_based_entries a) = Returns o
    /\ _generate_risk_summary (rule_based_entries a) o = Returns s.
Proof.
  pose proof (rule_based_levels a risk_categories) as Hlv.
  fold (rule_based_entries a) in Hlv.
  destruct (calculate_overall_risk_returns _ _ Hlv) as [o Ho].
  destruct (generate_risk_summary_returns _ _ o Hlv) as [s Hs].
  exists o, s. split; [| split; assumption].
  unfold predict_risks_try.
  assert (Hpreds :
    (if ML_AVAILABLE p && truthy (models p)
     then _predict_with_ml (get (models p) []) a
     else _predict_with_rules a) = rule_based_entries a).
  { destruct (ML_AVAILABLE p && truthy (models p));
      rewrite ?predict_with_ml_is_rule_based; apply predict_with_rules_entries. }
  rewrite Hpreds. unfold bind, lift. rewrite Ho, Hs. reflexivity.
Qed.

(** C8. [predict_risks] is the [try] block guarded by the fallback handler;
    it returns for every predictor, analysis record and world; and whatever
    the guarded block is, the guarded call returns, and when the block
    raises the result is the fallback bundle: an entry for each category
    with probability in [25, 75] and the literal fallback factor and
    suggestion, overall level Medium. *)
Theorem predict_risks_never_raises
    (p : predictor) (a : analysis_dict) (w : world) :
  predict_risks p a
  = try_except (predict_risks_try p a) (fun _ => _generate_fallback_risks)
  /\ (exists b w', predict_risks p a w = (Returns b, w'))
  /\ (forall body : M risk_bundle,
        (exists b w',
           try_except body (fun _ => _generate_fallback_risks) w = (Returns b, w'))
        /\ (forall e w1,
              body w = (Raises e, w1) ->
              exists b w',
                try_except body (fun _ => _generate_fallback_risks) w
                = (Returns b, w')
                /\ fallback_bundle b)).
Proof.
  split; [reflexivity |].
  assert (Hany : forall body : M risk_bundle,
            (exists b w',
               try_except body (fun _ => _generate_fallback_risks) w
               = (Returns b, w'))
            /\ (forall e w1,
                  body w = (Raises e, w1) ->
                  exists b w',
                    try_except body (fun _ => _generate_fallback_risks) w
                    = (Returns b, w')
                    /\ fallback_bundle b)).
  { intros body. unfold try_except.
    destruct (body w) as [[b | e] w1] eqn:E.
    - split; [exists b, w1; reflexivity |]. intros e w2 H. discriminate.
    - destruct (generate_fallback_risks_spec w1) as (b & w' & Hb & Hf).
      split; [exists b, w'; exact Hb |].
      intros e' w2 H. injection H as _ <-.
      exists b, w'. split; assumption. }
  split; [| exact Hany].
  destruct (Hany (predict_risks_try p a)) as [H _]. exact H.
Qed.

End RiskPrediction.

(* ================================================================== *)
(** ** Missing keys in the rule-based strategy *)
(* ================================================================== *)

Section MissingKeys.



End MissingKeys.

(* ================================================================== *)
(** ** Repeatability of the pipeline *)
(* ================================================================== *)

Section Repeatability.

(** C9 (as the code has it). With [np] bound, two runs of [analyze_dpr] on
    the same text and file name, in any two worlds, both return, and their
    records agree on every field except [analyzed_at], which holds the
    clock reading of each run; the records are equal when the readings are.
    The rule-based risk result of every category, the whole prediction set,
    the overall risk, the risk summary and the recommendations computed
    from the two records are identical. *)
Theorem pipeline_repeatable
    (rt : runtime) (text filename : string) (w1 w2 : world) :
  np_bound rt = true ->
  exists r1 r2,
    fst (analyze_dpr rt text filename w1) = Returns r1
    /\ fst (analyze_dpr rt text filename w2) = Returns r2
    /\ analyzed_at r1 = Some (ticks w1 0%nat)
    /\ analyzed_at r2 = Some (ticks w2 0%nat)
    /\ with_analyzed_at r1 None = with_analyzed_at r2 None
    /\ (ticks w1 0%nat = ticks w2 0%nat -> r1 = r2)
    /\ (forall cat, _rule_based_risk cat r1 = _rule_based_risk cat r2)
    /\ _predict_with_rules r1 = _predict_with_rules r2
    /\ generate_recommendations r1 = generate_recommendations r2
    /\ (forall p w3 w4, exists b1 b2,
          fst (predict_risks p r1 w3) = Returns b1
          /\ fst (predict_risks p r2 w4) = Returns b2
          /\ risk_predictions b1 = risk_predictions b2
          /\ overall_risk b1 = overall_risk b2
          /\ risk_summary b1 = risk_summary b2).
Proof.
  intros Hnp.
  destruct (analyze_dpr_normal rt text filename Hnp)
    as (total & found & q & _ & Hrun).
  eexists. eexists.
  rewrite (Hrun w1), (Hrun w2). cbn [fst].
  split; [reflexivity |]. split; [reflexivity |].
  cbn [analyzed_at].
  split; [reflexivity |]. split; [reflexivity |].
  split; [reflexivity |].
  split; [intros ->; reflexivity |].
  split; [intros cat; reflexivity |].
  split; [reflexivity |].
  split; [reflexivity |].
  intros p w3 w4.
  match goal with
  | |- context [predict_risks p ?a w3] =>
      destruct (predict_risks_try_returns p a w3) as (o1 & s1 & H1 & Ho1 & Hs1)
  end.
  match goal with
  | |- context [predict_risks p ?a w4] =>
      destruct (predict_risks_try_returns p a w4) as (o2 & s2 & H2 & Ho2 & Hs2)
  end.
  unfold predict_risks, try_except. rewrite H1, H2. cbn [fst].
  eexists. eexists. split; [reflexivity |]. split; [reflexivity |].
  cbn [risk_predictions overall_risk risk_summary].
  split; [reflexivity |].
  change (rule_based_entries _) with
    (rule_based_entries
       (with_analyzed_at
          {| DPRAnalyzer.filename := Some filename;
             analyzed_at := None;
             overall_score := Some (round1 total);
             completeness_percentage :=
               Some (round1 (inject_Z found
                             / inject_Z (Z.of_nat (List.length section_weights))
                             * 100)%Q);
             sections_found := Some found;
             total_sections := Some (Z.of_nat (List.length section_weights));
             section_analyses := Some (analyzed_sections text);
             quality_scores := Some q;
             document_stats :=
               Some {| word_count := len_split text;
                       sentence_count := len_re_split text;
                       readability :=
                         if NLP_AVAILABLE rt
                         then calculate_readability rt text
                         else 70 |} |} None)) in Ho1, Ho2, Hs1, Hs2.
  rewrite Ho1 in Ho2. injection Ho2 as <-.
  rewrite Hs1 in Hs2. injection Hs2 as <-.
  split; reflexivity.
Qed.

(** Two runs on the empty text through the theorem: the second, started in
    the world the first one left, agrees with it except for the time. *)
Lemma pipeline_repeatable_empty_text :
  exists r1 r2,
    fst (analyze_dpr nlp_runtime "" "empty.txt" sample_world) = Returns r1
    /\ fst (analyze_dpr nlp_runtime "" "empty.txt" (after_tick sample_world))
       = Returns r2
    /\ with_analyzed_at r1 None = with_analyzed_at r2 None
    /\ _predict_with_rules r1 = _predict_with_rules r2.
Proof.
  destruct (pipeline_repeatable nlp_runtime "" "empty.txt"
              sample_world (after_tick sample_world) eq_refl)
    as (r1 & r2 & H1 & H2 & _ & _ & Hsame & _ & _ & Hrules & _).
  exists r1, r2. repeat split; assumption.
Defined.

(** Two consecutive runs on the same text return different records: the
    second reads a later time. *)
Lemma pipeline_runs_differ_in_time :
  exists r1 r2,
    analyze_dpr nlp_runtime "" "empty.txt" sample_world
    = (Returns r1, after_tick sample_world)
    /\ fst (analyze_dpr nlp_runtime "" "empty.txt" (after_tick sample_world))
       = Returns r2
    /\ analyzed_at r1 = Some "2025-01-01T09:00:00.000000"%string
    /\ analyzed_at r2 = Some "2025-01-01T09:00:01.250000"%string
    /\ analyzed_at r1 <> analyzed_at r2
    /\ r1 <> r2.
Proof.
  destruct (analyze_dpr_normal nlp_runtime "" "empty.txt" eq_refl)
    as (total & found & q & _ & Hrun).
  eexists. eexists.
  rewrite (Hrun sample_world), (Hrun (after_tick sample_world)).
  split; [reflexivity |]. split; [reflexivity |].
  cbn [analyzed_at].
  split; [reflexivity |]. split; [reflexivity |].
  split; [discriminate |].
  intros H. injection H as H. discriminate H.
Qed.

End Repeatability.

(* ================================================================== *)
(** ** Section results as functions of the keyword count *)
(* ================================================================== *)

Section SectionResults.

Ltac decide_comparisons :=
  repeat match goal with
         | |- context [?a <? ?b] =>
             first [ replace (a <? b) with true
                       by (symmetry; apply Z.ltb_lt; lia)
                   | replace (a <? b) with false
                       by (symmetry; apply Z.ltb_ge; lia) ]
         end.

(** Every result of [analyze_section] has all four numeric keys, with the
    score in [30, 90], the completeness in [20, 95] and the quality in
    [50, 100]: the quality is [min(100, 50 + 10 n)] for [n] occurrences of
    the section's quality indicators in the lower-cased text, so it is 50
    without any (and for a name outside the catalog) and 100 from five on;
    the keyword count is never negative. *)
Theorem section_result_invariant (text section_name : string) :
  let r := analyze_section text section_name in
  let n := quality_count text section_name in
  exists s c q k,
    score r = Some s /\ completeness r = Some c
    /\ quality r = Some q /\ keyword_matches r = Some k
    /\ 30 <= s <= 90 /\ 20 <= c <= 95 /\ 50 <= q <= 100 /\ 0 <= k
    /\ q = Z.min 100 (50 + 10 * n)
    /\ 0 <= n
    /\ (n = 0 -> q = 50)
    /\ (5 <= n -> q = 100)
    /\ (lookup section_name quality_indicators = None -> q = 50).
Proof.
  intros r n.
  pose proof (count_terms_nonneg (lower text)
                (get (lookup section_name quality_indicators) [])) as Hn.
  fold (quality_count text section_name) in Hn. fold n in Hn.
  exists (tier_score (keyword_count text section_name)),
         (tier_completeness (keyword_count text section_name)),
         (Z.min 100 (50 + 10 * n)),
         (keyword_count text section_name).
  split; [apply analyze_section_score |].
  split; [apply analyze_section_completeness |].
  split.
  { unfold r, analyze_section, assess_section_quality.
    destruct (5 <=? keyword_count text section_name);
      [| destruct (2 <=? keyword_count text section_name)];
      cbn [quality]; fold (quality_count text section_name); fold n;
      f_equal; lia. }
  split; [apply analyze_section_fields |].
  split; [apply tier_score_range |].
  split; [apply tier_completeness_range |].
  split; [lia |].
  split; [apply keyword_count_nonneg |].
  split; [reflexivity |].
  split; [exact Hn |].
  split; [intros ->; reflexivity |].
  split; [intros H; lia |].
  intros Hnone. unfold n, quality_count. rewrite Hnone. reflexivity.
Qed.

Lemma tier_score_values (k : Z) :
  (k < 2 -> tier_score k = 30 /\ tier_completeness k = 20)
  /\ (k = 2 -> tier_score k = 66 /\ tier_completeness k = 70)
  /\ (k = 3 -> tier_score k = 74 /\ tier_completeness k = 80)
  /\ (k = 4 -> tier_score k = 82 /\ tier_completeness k = 90)
  /\ (5 <= k -> 75 <= tier_score k <= 90 /\ 80 <= tier_completeness k <= 95
                /\ tier_score k = Z.min 90 (60 + 3 * k)
                /\ tier_completeness k = Z.min 95 (70 + 2 * k)).
Proof.
  unfold tier_score, tier_completeness.
  destruct (Z.leb_spec 5 k); destruct (Z.leb_spec 2 k);
    repeat split; intros; lia.
Qed.



(** The issues and the recommendation of a section are fixed by its name
    and keyword count [k]: both general issues are reported exactly when
    [k < 2], the extra issue of Risk Analysis and of Means of Finance when
    [k < 3], and the one recommendation (the section's advice) when
    [k < 4]; so there are at most three issues, and from four occurrences
    on a section has no issue and no recommendation. *)
Theorem section_findings_by_keyword_count (text section_name : string) :
  let r := analyze_section text section_name in
  let k := keyword_count text section_name in
  issues r = issues_by_count section_name k
  /\ recommendations r
     = (if k <? 4
        then [get (lookup section_name section_advice)
                  ("Improve " ++ section_name ++ " section quality")%string]
        else [])
  /\ (List.length (issues r) <= 3)%nat
  /\ (4 <= k -> issues r = [] /\ recommendations r = [])
  /\ (k < 2 -> (2 <= List.length (issues r))%nat).
Proof.
  intros r k.
  assert (Hi : issues r = issues_by_count section_name k).
  { unfold r, analyze_section. fold k.
    unfold issues_by_count, identify_section_issues.
    destruct (Z.leb_spec 5 k) as [H5 | H5];
      [| destruct (Z.leb_spec 2 k) as [H2 | H2]]; cbn [issues].
    - decide_comparisons.
      destruct (String.eqb section_name "Risk Analysis");
        destruct (String.eqb section_name "Means of Finance"); reflexivity.
    - assert (Hk : k = 2 \/ k = 3 \/ k = 4) by lia.
      destruct Hk as [-> | [-> | ->]];
        destruct (String.eqb section_name "Risk Analysis");
        destruct (String.eqb section_name "Means of Finance"); reflexivity.
    - decide_comparisons.
      destruct (String.eqb section_name "Risk Analysis");
        destruct (String.eqb section_name "Means of Finance"); reflexivity. }
  assert (Hr : recommendations r
               = (if k <? 4
                  then [get (lookup section_name section_advice)
                            ("Improve " ++ section_name ++ " section quality")%string]
                  else [])).
  { unfold r, analyze_section. fold k.
    unfold generate_section_recommendations.
    destruct (Z.leb_spec 5 k) as [H5 | H5];
      [| destruct (Z.leb_spec 2 k) as [H2 | H2]]; cbn [recommendations].
    - decide_comparisons. reflexivity.
    - assert (Hk : k = 2 \/ k = 3 \/ k = 4) by lia.
      destruct Hk as [-> | [-> | ->]]; reflexivity.
    - decide_comparisons. reflexivity. }
  split; [exact Hi |]. split; [exact Hr |].
  rewrite Hi, Hr. unfold issues_by_count.
  split.
  { destruct (k <? 2); destruct (k <? 3);
      destruct (String.eqb_spec section_name "Risk Analysis") as [-> | _];
      try destruct (String.eqb_spec section_name "Means of Finance");
      cbn [andb app List.length String.eqb Ascii.eqb Bool.eqb]; try lia. }
  split.
  { intros H4. decide_comparisons. rewrite !andb_false_r. split; reflexivity. }
  intros H2. decide_comparisons. cbn [app List.length]. lia.
Qed.

End SectionResults.

(* ================================================================== *)
(** ** Invariants of the analysis record *)
(* ================================================================== *)

Section RecordInvariants.

Lemma count_complete_covered (bound : Z) (text : string)
    (entries : list (string * Z)) :
  20 <= bound < 70 ->
  count_complete bound
    (map (fun nw => (fst nw, analyze_section text (fst nw))) entries)
  = Returns (Z.of_nat (List.length
               (filter (fun n => 2 <=? keyword_count text n)
                       (map fst entries)))).
Proof.
  intros Hb. induction entries as [| [name w] rest IH];
    cbn [map count_complete fst filter]; [reflexivity |].
  rewrite analyze_section_completeness. cbn [getitem obind].
  rewrite IH. cbn [obind]. f_equal.
  destruct (tier_score_values (keyword_count text name))
    as (Hlow & H2 & H3 & H4 & Hhigh).
  destruct (Z.leb_spec 2 (keyword_count text name)) as [Hk | Hk].
  - assert (Hc : 70 <= tier_completeness (keyword_count text name)).
    { destruct (Z.leb_spec 5 (keyword_count text name)) as [H5 | H5];
        [destruct (Hhigh H5) as (_ & Hc & _); lia |].
      assert (Hcases : keyword_count text name = 2
                       \/ keyword_count text name = 3
                       \/ keyword_count text name = 4) by lia.
      destruct Hcases as [E | [E | E]];
        [destruct (H2 E) | destruct (H3 E) | destruct (H4 E)]; lia. }
    destruct (Z.ltb_spec bound (tier_completeness (keyword_count text name)));
      [| lia].
    cbn [List.length]. lia.
  - destruct (Hlow Hk) as [_ Hc]. rewrite Hc.
    destruct (Z.ltb_spec bound 20); [lia | reflexivity].
Qed.

Lemma completeness_values_explicit (text : string)
    (entries : list (string * Z)) :
  completeness_values
    (map (fun nw => (fst nw, analyze_section text (fst nw))) entries)
  = Returns (map (fun n => tier_completeness (keyword_count text n))
                 (map fst entries)).
Proof.
  induction entries as [| [name w] rest IH];
    cbn [map completeness_values fst]; [reflexivity |].
  rewrite analyze_section_completeness. cbn [getitem obind].
  rewrite IH. reflexivity.
Qed.

Lemma calculate_quality_scores_explicit (rt : runtime) (text : string) :
  np_bound rt = true ->
  calculate_quality_scores rt text (analyzed_sections text)
  = Returns (normal_quality_scores text).
Proof.
  intros Hnp. unfold calculate_quality_scores, analyzed_sections.
  rewrite completeness_values_explicit. cbn [obind].
  unfold np_mean. rewrite Hnp. cbn [obind].
  unfold assess_compliance.
  rewrite (count_complete_covered 40) by lia. cbn [obind].
  reflexivity.
Qed.

(** The normal path of [analyze_dpr] with every field written out. *)
Lemma analyze_dpr_normal_explicit (rt : runtime) (text filename : string) :
  np_bound rt = true ->
  exists total,
    (total == weighted_sum (fun n => score_of (analyze_section text n)))%Q
    /\ forall w,
        analyze_dpr rt text filename w
        = (Returns
             {| DPRAnalyzer.filename := Some filename;
                analyzed_at := Some (ticks w 0%nat);
                overall_score := Some (round1 total);
                completeness_percentage :=
                  Some (round1 (inject_Z (Z.of_nat (List.length (covered_sections text)))
                                / inject_Z (Z.of_nat (List.length section_weights))
                                * 100)%Q);
                sections_found :=
                  Some (Z.of_nat (List.length (covered_sections text)));
                total_sections := Some (Z.of_nat (List.length section_weights));
                section_analyses := Some (analyzed_sections text);
                quality_scores := Some (normal_quality_scores text);
                document_stats :=
                  Some {| word_count := len_split text;
                          sentence_count := len_re_split text;
                          readability :=
                            if NLP_AVAILABLE rt
                            then calculate_readability rt text
                            else 70 |} |},
           after_tick w).
Proof.
  intros Hnp.
  destruct (score_sections_catalog text) as (total & Hscore & Htotal).
  exists total. split; [exact Htotal |].
  intros w. unfold analyze_dpr, try_except, analyze_dpr_try, bind, lift.
  rewrite Hscore.
  unfold analyzed_sections at 1.
  rewrite (count_complete_covered 30) by lia.
  fold (covered_sections text).
  rewrite (calculate_quality_scores_explicit rt text Hnp).
  reflexivity.
Qed.

Lemma count_words_nonneg (s : string) (inword : bool) : 0 <= count_words inword s.
Proof.
  revert inword. induction s as [| c s IH]; intros inword; cbn [count_words].
  - lia.
  - destruct (isspace c); [apply IH |].
    specialize (IH true). destruct inword; lia.
Qed.

Lemma count_runs_nonneg (s : string) (inrun : bool) : 0 <= count_runs inrun s.
Proof.
  revert inrun. induction s as [| c s IH]; intros inrun; cbn [count_runs].
  - lia.
  - destruct (is_terminator c); [| apply IH].
    specialize (IH true). destruct inrun; lia.
Qed.

Lemma analyzed_sections_keys (text : string) :
  map fst (analyzed_sections text) = map fst section_weights.
Proof.
  unfold analyzed_sections. rewrite map_map. reflexivity.
Qed.

Lemma lookup_analyzed (text name : string) :
  In name (map fst section_weights) ->
  lookup name (analyzed_sections text) = Some (analyze_section text name).
Proof.
  intros Hin. apply lookup_nodup.
  - rewrite analyzed_sections_keys. exact section_names_nodup.
  - unfold analyzed_sections.
    apply in_map_iff in Hin. destruct Hin as ([n w] & <- & Hin).
    apply (in_map (fun nw => (fst nw, analyze_section text (fst nw)))) in Hin.
    exact Hin.
Qed.

Lemma covered_sections_bound (text : string) :
  (List.length (covered_sections text) <= 10)%nat.
Proof.
  unfold covered_sections.
  apply (Nat.le_trans _ _ _ (filter_length_le _ _)). reflexivity.
Qed.

Lemma percentage_of_found (found : Z) :
  (round1 (inject_Z found / inject_Z (Z.of_nat (List.length section_weights))
           * 100) == inject_Z (10 * found))%Q.
Proof.
  rewrite (round1_comp _ (inject_Z (10 * found))); [apply round1_Z |].
  rewrite inject_Z_mult.
  change (inject_Z (Z.of_nat (List.length section_weights))) with 10%Q.
  change (inject_Z 10) with 10%Q. field.
Qed.

(** With [np] bound, [analyze_dpr] returns for every text a record that
    echoes the file name, lists the ten catalogued sections in catalog
    order, and counts as found exactly the sections with at least two
    keyword occurrences; the completeness percentage is ten times that
    count, the overall score has one decimal and lies in [30, 90], the word
    count is not negative and the sentence count is at least one. *)
Theorem analysis_record_invariants
    (rt : runtime) (text filename : string) (w : world) :
  np_bound rt = true ->
  exists r sections o cp stats,
    fst (analyze_dpr rt text filename w) = Returns r
    /\ DPRAnalyzer.filename r = Some filename
    /\ section_analyses r = Some sections
    /\ map fst sections = map fst section_weights
    /\ List.length sections = 10%nat
    /\ total_sections r = Some 10
    /\ sections_found r = Some (Z.of_nat (List.length (covered_sections text)))
    /\ (List.length (covered_sections text) <= 10)%nat
    /\ completeness_percentage r = Some cp
    /\ (cp == inject_Z (10 * Z.of_nat (List.length (covered_sections text))))%Q
    /\ overall_score r = Some o
    /\ (30 <= o <= 90)%Q
    /\ tenths o
    /\ document_stats r = Some stats
    /\ word_count stats = len_split text
    /\ 0 <= word_count stats
    /\ 1 <= sentence_count stats.
Proof.
  intros Hnp.
  destruct (analyze_dpr_normal_explicit rt text filename Hnp)
    as (total & Htotal & Hrun).
  eexists. eexists. eexists. eexists. eexists.
  rewrite (Hrun w).
  cbn [fst DPRAnalyzer.filename section_analyses total_sections sections_found
       completeness_percentage overall_score document_stats].
  split; [reflexivity |]. split; [reflexivity |]. split; [reflexivity |].
  split; [apply analyzed_sections_keys |].
  split; [unfold analyzed_sections; rewrite length_map; reflexivity |].
  split; [reflexivity |]. split; [reflexivity |].
  split; [apply covered_sections_bound |].
  split; [reflexivity |].
  split; [apply percentage_of_found |].
  split; [reflexivity |].
  split.
  { apply (round1_range 30 90). rewrite Htotal.
    apply weighted_sum_range. intros n.
    rewrite score_of_analyze_section.
    pose proof (tier_score_range (keyword_count text n)) as [L U].
    change 30%Q with (inject_Z 30). change 90%Q with (inject_Z 90).
    rewrite <- !Zle_Qle. lia. }
  split; [eexists; unfold round1; reflexivity |].
  split; [reflexivity |].
  cbn [word_count sentence_count].
  split; [reflexivity |].
  split; [apply count_words_nonneg |].
  unfold len_re_split. pose proof (count_runs_nonneg text false). lia.
Qed.

(** A text covering two sections: two of ten found, 20 percent. *)
Lemma analysis_record_example :
  exists r,
    fst (analyze_dpr nlp_runtime
           "The budget and the cost. A risk, and a threat." "a.txt"
           sample_world) = Returns r
    /\ sections_found r = Some 2
    /\ completeness_percentage r = Some (200 # 10)%Q.
Proof.
  destruct (analysis_record_invariants nlp_runtime
              "The budget and the cost. A risk, and a threat." "a.txt"
              sample_world eq_refl)
    as (r & sections & o & cp & stats & Hr & _).
  exists r. split; [exact Hr |].
  assert (Hv : fst (analyze_dpr nlp_runtime
                      "The budget and the cost. A risk, and a threat." "a.txt"
                      sample_world) = Returns r) by exact Hr.
  vm_compute in Hv. injection Hv as <-. split; reflexivity.
Defined.

End RecordInvariants.

(* ================================================================== *)
(** ** Quality metrics of the analysis record *)
(* ================================================================== *)

Section QualityMetrics.

Lemma fold_add_range (lo hi : Z) (values : list Z) :
  Forall (fun v => lo <= v <= hi) values ->
  forall a,
    a + lo * Z.of_nat (List.length values)
    <= fold_left Z.add values a
    <= a + hi * Z.of_nat (List.length values).
Proof.
  induction 1 as [| v vs Hv _ IH]; intros a; cbn [fold_left List.length].
  - lia.
  - specialize (IH (a + v)). lia.
Qed.

Lemma indicator_score_range (text : string) (terms : list string) (base step : Z) :
  0 <= step -> base <= 100 ->
  base <= Z.min 100 (base + count_terms (lower text) terms * step) <= 100.
Proof.
  intros Hs Hb. pose proof (count_terms_nonneg (lower text) terms). nia.
Qed.

Lemma round1_Z_range (a b z : Z) :
  a <= z <= b -> (inject_Z a <= round1 (inject_Z z) <= inject_Z b)%Q.
Proof.
  intros [L U]. apply round1_range. rewrite <- !Zle_Qle. split; assumption.
Qed.

Lemma technical_viability_analyzed (text : string) :
  assess_technical_viability (analyzed_sections text)
  = tier_score (keyword_count text "Technology Issues") + 10.
Proof.
  unfold assess_technical_viability.
  rewrite lookup_analyzed by (cbn; tauto).
  rewrite analyze_section_score. cbn [get].
  pose proof (tier_score_range (keyword_count text "Technology Issues")). lia.
Qed.

(** On the normal path the quality metrics satisfy: compliance equals the
    completeness percentage (a section has completeness above 40 exactly
    when it has completeness above 30); technical viability is the
    Technology Issues score plus 10, between 40 and 100; data accuracy lies
    in [40, 100], budget realism in [30, 100] and the mean completeness in
    [20, 95]. *)
Theorem quality_scores_invariants
    (rt : runtime) (text filename : string) (w : world) :
  np_bound rt = true ->
  exists r q cp,
    fst (analyze_dpr rt text filename w) = Returns r
    /\ quality_scores r = Some q
    /\ completeness_percentage r = Some cp
    /\ (compliance q == cp)%Q
    /\ (technical_viability q
        == inject_Z (tier_score (keyword_count text "Technology Issues") + 10))%Q
    /\ (40 <= technical_viability q <= 100)%Q
    /\ (40 <= data_accuracy q <= 100)%Q
    /\ (30 <= budget_realism q <= 100)%Q
    /\ (20 <= q_completeness q <= 95)%Q.
Proof.
  intros Hnp.
  destruct (analyze_dpr_normal_explicit rt text filename Hnp)
    as (total & _ & Hrun).
  eexists. eexists. eexists. rewrite (Hrun w).
  cbn [fst quality_scores completeness_percentage].
  split; [reflexivity |]. split; [reflexivity |]. split; [reflexivity |].
  unfold normal_quality_scores.
  cbn [compliance technical_viability data_accuracy budget_realism q_completeness].
  set (found := Z.of_nat (List.length (covered_sections text))).
  split.
  { rewrite (round1_comp _ (inject_Z (10 * found)))
      by apply percentage_of_found.
    rewrite round1_Z. symmetry. apply percentage_of_found. }
  rewrite technical_viability_analyzed.
  pose proof (tier_score_range (keyword_count text "Technology Issues")) as Ht.
  split; [apply round1_Z |].
  split; [apply (round1_Z_range 40 100); lia |].
  split.
  { apply (round1_Z_range 40 100). unfold assess_data_accuracy.
    apply indicator_score_range; lia. }
  split.
  { apply (round1_Z_range 30 100). unfold assess_budget_realism.
    apply indicator_score_range; lia. }
  apply (round1_range 20 95).
  assert (Hlen : List.length (section_completeness_values text) = 10%nat)
    by (unfold section_completeness_values; rewrite !length_map; reflexivity).
  assert (Hall : Forall (fun v => 20 <= v <= 95) (section_completeness_values text)).
  { unfold section_completeness_values. apply Forall_forall. intros v Hv.
    apply in_map_iff in Hv. destruct Hv as (n & <- & _).
    apply tier_completeness_range. }
  pose proof (fold_add_range 20 95 _ Hall 0) as Hsum.
  rewrite Hlen in Hsum |- *.
  set (total_c := fold_left Z.add (section_completeness_values text) 0) in *.
  change (inject_Z (Z.of_nat 10)) with 10%Q.
  assert (Hq : (inject_Z total_c / 10 == inject_Z total_c * (1 # 10))%Q)
    by field.
  rewrite Hq.
  assert (HL : (inject_Z 200 <= inject_Z total_c)%Q) by (rewrite <- Zle_Qle; lia).
  assert (HU : (inject_Z total_c <= inject_Z 950)%Q) by (rewrite <- Zle_Qle; lia).
  change (inject_Z 200) with 200%Q in HL. change (inject_Z 950) with 950%Q in HU.
  change (inject_Z 20) with 20%Q. change (inject_Z 95) with 95%Q.
  split; lra.
Qed.

(** The metrics of the empty text through the theorem. *)
Lemma quality_scores_example :
  exists r q cp,
    fst (analyze_dpr nlp_runtime "" "empty.txt" sample_world) = Returns r
    /\ quality_scores r = Some q
    /\ completeness_percentage r = Some cp
    /\ (compliance q == cp)%Q
    /\ (technical_viability q == 40)%Q.
Proof.
  destruct (quality_scores_invariants nlp_runtime "" "empty.txt"
              sample_world eq_refl)
    as (r & q & cp & Hr & Hq & Hcp & Hc & Ht & _).
  exists r, q, cp.
  split; [exact Hr |]. split; [exact Hq |]. split; [exact Hcp |].
  split; [exact Hc | exact Ht].
Defined.

End QualityMetrics.

(* ================================================================== *)
(** ** The risk bundle *)
(* ================================================================== *)

Section RiskBundle.

Lemma round1_range_tenths (a b : Z) (x : Q) :
  (a # 10 <= x <= b # 10)%Q -> (a # 10 <= round1 x <= b # 10)%Q.
Proof.
  intros [Ha Hb]. rewrite (Qmake10 a) in Ha. rewrite (Qmake10 b) in Hb.
  assert (L : a <= round_half_even (x * 10))
    by (apply round_half_even_lower; lra).
  assert (U : round_half_even (x * 10) <= b)
    by (apply round_half_even_upper; lra).
  unfold round1, Qle. cbn [Qnum Qden]. lia.
Qed.

Lemma Qle_div_iff (a : Q) (k n : Z) :
  0 < n ->
  (a <= inject_Z k / inject_Z n <-> a * inject_Z n <= inject_Z k)%Q.
Proof.
  intros Hn.
  assert (Hq : (0 < inject_Z n)%Q)
    by (change 0%Q with (inject_Z 0); rewrite <- Zlt_Qlt; exact Hn).
  split; intros H.
  - assert (E : (inject_Z k == inject_Z k / inject_Z n * inject_Z n)%Q)
      by (field; lra).
    rewrite E. apply Qmult_le_compat_r; [exact H | lra].
  - apply Qle_shift_div_l; assumption.
Qed.

Lemma Qdiv_le_iff (a : Q) (k n : Z) :
  0 < n ->
  (inject_Z k / inject_Z n <= a <-> inject_Z k <= a * inject_Z n)%Q.
Proof.
  intros Hn.
  assert (Hq : (0 < inject_Z n)%Q)
    by (change 0%Q with (inject_Z 0); rewrite <- Zlt_Qlt; exact Hn).
  split; intros H.
  - assert (E : (inject_Z k == inject_Z k / inject_Z n * inject_Z n)%Q)
      by (field; lra).
    rewrite E. apply Qmult_le_compat_r; [exact H | lra].
  - apply Qle_shift_div_r; assumption.
Qed.

Lemma scaled_le_Z (c d : positive) (n k : Z) :
  ((Z.pos c # d) * inject_Z n <= inject_Z k)%Q <-> Z.pos c * n <= Z.pos d * k.
Proof.
  unfold Qle, Qmult, inject_Z. cbn [Qnum Qden].
  rewrite Pos.mul_1_r. lia.
Qed.

Lemma le_scaled_Z (c d : positive) (n k : Z) :
  (inject_Z k <= (Z.pos c # d) * inject_Z n)%Q <-> Z.pos d * k <= Z.pos c * n.
Proof.
  unfold Qle, Qmult, inject_Z. cbn [Qnum Qden].
  rewrite Pos.mul_1_r. lia.
Qed.

(** The result of [_calculate_overall_risk] for a non-empty prediction set
    whose entries all have a level. *)
Lemma calculate_overall_risk_value (preds : list (string * risk_dict))
    (levels : list risk_level) :
  map (fun e => level (snd e)) preds = map Some levels ->
  preds <> [] ->
  let h := tally High levels in
  let m := tally Medium levels in
  let l := tally Low levels in
  let n := Z.of_nat (List.length preds) in
  let weighted := (inject_Z (h * 3 + m * 2 + l * 1) / inject_Z n)%Q in
  h + m + l = n /\ 0 < n
  /\ _calculate_overall_risk preds
     = Returns {| overall_level :=
                    if Qleb (25 # 10) weighted then High
                    else if Qleb (15 # 10) weighted then Medium else Low;
                  overall_risk_score := round1 (weighted / 3 * 100);
                  high_risk_count := Some h;
                  medium_risk_count := Some m;
                  low_risk_count := Some l |}.
Proof.
  intros Hlv Hne h m l n weighted.
  assert (Hsum : h + m + l = n).
  { unfold h, m, l, n. rewrite tally_total.
    rewrite <- (length_map Some levels), <- Hlv, length_map. reflexivity. }
  assert (Hn : 0 < n).
  { unfold n. destruct preds; [contradiction | cbn [List.length]; lia]. }
  split; [exact Hsum |]. split; [exact Hn |].
  unfold _calculate_overall_risk.
  rewrite (count_level_spec High preds levels Hlv),
          (count_level_spec Medium preds levels Hlv),
          (count_level_spec Low preds levels Hlv).
  cbn [obind]. fold n.
  destruct (Z.eqb_spec n 0); [lia | reflexivity].
Qed.

Lemma count_level_missing (l : risk_level) (preds : list (string * risk_dict))
    (name : string) (risk : risk_dict) :
  In (name, risk) preds -> level risk = None ->
  count_level l preds = Raises (KeyError "level").
Proof.
  intros Hin Hnone. induction preds as [| [k d] rest IH]; [contradiction |].
  cbn [count_level]. destruct (level d) as [lv |] eqn:E; cbn [getitem obind].
  - destruct Hin as [Heq | Hin]; [injection Heq as -> ->; congruence |].
    rewrite (IH Hin). reflexivity.
  - reflexivity.
Qed.





End RiskBundle.

(* ================================================================== *)
(** ** Overall risk and summary for any prediction set *)
(* ================================================================== *)

Section OverallRiskCases.

Lemma overall_level_by_counts (h m l n : Z) :
  h + m + l = n -> 0 < n ->
  let weighted := (inject_Z (h * 3 + m * 2 + l * 1) / inject_Z n)%Q in
  (Qleb (25 # 10) weighted = true <-> m + 3 * l <= h)
  /\ (Qleb (15 # 10) weighted = true <-> l <= 3 * h + m).
Proof.
  intros Hsum Hn weighted. unfold weighted.
  rewrite !Qleb_true, !Qle_div_iff by exact Hn.
  rewrite !scaled_le_Z. split; lia.
Qed.

(** [_calculate_overall_risk] on any prediction set: the empty set gives
    level Medium and score 50 without the three count keys; an entry
    without ['level'] makes it raise [KeyError]; otherwise the counts are
    present and sum to the number of entries, the score lies in
    [33.3, 100], the level is High exactly when the High entries are at
    least the Medium ones plus three times the Low ones, and Low exactly
    when the Low entries outnumber the Medium ones plus three times the
    High ones. *)
Theorem overall_risk_edge_cases :
  _calculate_overall_risk []
  = Returns {| overall_level := Medium; overall_risk_score := 50;
               high_risk_count := None; medium_risk_count := None;
               low_risk_count := None |}
  /\ (forall preds name risk,
        In (name, risk) preds -> level risk = None ->
        _calculate_overall_risk preds = Raises (KeyError "level"))
  /\ (forall preds levels,
        map (fun e => level (snd e)) preds = map Some levels ->
        preds <> [] ->
        let h := tally High levels in
        let m := tally Medium levels in
        let l := tally Low levels in
        exists o,
          _calculate_overall_risk preds = Returns o
          /\ high_risk_count o = Some h
          /\ medium_risk_count o = Some m
          /\ low_risk_count o = Some l
          /\ h + m + l = Z.of_nat (List.length preds)
          /\ (overall_level o = High <-> m + 3 * l <= h)
          /\ (overall_level o = Low <-> 3 * h + m < l)
          /\ (333 # 10 <= overall_risk_score o <= 1000 # 10)%Q).
Proof.
  split; [reflexivity |].
  split.
  { intros preds name risk Hin Hnone. unfold _calculate_overall_risk.
    rewrite (count_level_missing High preds name risk Hin Hnone). reflexivity. }
  intros preds levels Hlv Hne h m l.
  destruct (calculate_overall_risk_value preds levels Hlv Hne)
    as (Hsum & Hn & Hval).
  fold h m l in Hsum, Hval.
  set (n := Z.of_nat (List.length preds)) in *.
  destruct (overall_level_by_counts h m l n Hsum Hn) as [H25 H15].
  assert (Hh0 : 0 <= h) by apply tally_nonneg.
  assert (Hm0 : 0 <= m) by apply tally_nonneg.
  assert (Hl0 : 0 <= l) by apply tally_nonneg.
  eexists. split; [exact Hval |].
  cbn [high_risk_count medium_risk_count low_risk_count overall_level
       overall_risk_score].
  split; [reflexivity |]. split; [reflexivity |]. split; [reflexivity |].
  split; [exact Hsum |].
  set (weighted := (inject_Z (h * 3 + m * 2 + l * 1) / inject_Z n)%Q) in *.
  split.
  { destruct (Qleb (25 # 10) weighted) eqn:E25.
    - split; [intros _; apply H25; reflexivity | reflexivity].
    - split.
      + destruct (Qleb (15 # 10) weighted); discriminate.
      + intros Hh. apply H25 in Hh. discriminate. }
  split.
  { destruct (Qleb (25 # 10) weighted) eqn:E25.
    - split; [discriminate |].
      intros Hl. assert (m + 3 * l <= h) by (apply H25; reflexivity). lia.
    - destruct (Qleb (15 # 10) weighted) eqn:E15.
      + split; [discriminate |].
        intros Hl. assert (l <= 3 * h + m) by (apply H15; reflexivity). lia.
      + split; [| reflexivity]. intros _.
        destruct (Z.le_gt_cases l (3 * h + m)) as [Hle | Hgt]; [| lia].
        apply H15 in Hle. congruence. }
  apply round1_range_tenths.
  assert (Hw : (1 <= weighted <= 3)%Q).
  { unfold weighted. split.
    - apply Qle_div_iff; [exact Hn |].
      rewrite Qmult_1_l, <- Zle_Qle. lia.
    - apply Qdiv_le_iff; [exact Hn |].
      change 3%Q with (inject_Z 3). rewrite <- inject_Z_mult, <- Zle_Qle. lia. }
  assert (E : (weighted / 3 * 100 == weighted * (100 # 3))%Q) by field.
  rewrite E. destruct Hw. split; lra.
Qed.

Lemma high_risk_names_spec (preds : list (string * risk_dict)) :
  forall levels,
    map (fun e => level (snd e)) preds = map Some levels ->
    high_risk_names preds = Returns (high_categories preds)
    /\ Z.of_nat (List.length (high_categories preds)) = tally High levels.
Proof.
  unfold high_categories, tally.
  induction preds as [| [name risk] rest IH]; intros levels H.
  - destruct levels; [split; reflexivity | discriminate].
  - destruct levels as [| lv lvs]; [discriminate |].
    cbn [map snd] in H. injection H as Hlv Hrest.
    destruct (IH lvs Hrest) as [IHn IHl].
    cbn [high_risk_names filter snd]. rewrite Hlv, IHn. cbn [getitem obind].
    destruct lv; cbn [risk_level_eqb map fst List.length];
      (split; [reflexivity | lia]).
Qed.

(** The summary of a non-empty prediction set with levels, computed from
    the set and its overall risk: it names the High categories, in order,
    whenever there is one; without any High category it is the Medium
    message when the Medium entries are at least as many as the Low ones,
    and the Low-profile message otherwise, so up to two Medium categories
    out of five are summarised as a low-risk profile. *)
Theorem risk_summary_cases
    (preds : list (string * risk_dict)) (levels : list risk_level) :
  map (fun e => level (snd e)) preds = map Some levels ->
  preds <> [] ->
  let h := tally High levels in
  let m := tally Medium levels in
  let l := tally Low levels in
  exists o s,
    _calculate_overall_risk preds = Returns o
    /\ _generate_risk_summary preds o = Returns s
    /\ (0 < h ->
        s = ("High priority risks identified in "
             ++ join ", " (high_categories preds) ++ ". "
             ++ "Immediate attention and mitigation planning required.")%string)
    /\ (h = 0 -> l <= m ->
        s = "Medium priority risks identified. Enhanced monitoring and mitigation planning recommended."%string)
    /\ (h = 0 -> m < l ->
        s = "Low risk project profile. Standard risk management practices sufficient."%string).
Proof.
  intros Hlv Hne h m l.
  destruct (calculate_overall_risk_value preds levels Hlv Hne)
    as (Hsum & Hn & Hval).
  fold h m l in Hsum, Hval.
  set (n := Z.of_nat (List.length preds)) in *.
  destruct (overall_level_by_counts h m l n Hsum Hn) as [H25 H15].
  destruct (high_risk_names_spec preds levels Hlv) as [Hnames Hcount].
  fold h in Hcount.
  assert (Hm0 : 0 <= m) by apply tally_nonneg.
  assert (Hl0 : 0 <= l) by apply tally_nonneg.
  set (weighted := (inject_Z (h * 3 + m * 2 + l * 1) / inject_Z n)%Q) in *.
  assert (Hsummary : forall o,
            _generate_risk_summary preds o
            = match high_categories preds with
              | _ :: _ =>
                  Returns ("High priority risks identified in "
                           ++ join ", " (high_categories preds) ++ ". "
                           ++ "Immediate attention and mitigation planning required.")%string
              | [] =>
                  if risk_level_eqb (overall_level o) Medium
                  then Returns "Medium priority risks identified. Enhanced monitoring and mitigation planning recommended."%string
                  else Returns "Low risk project profile. Standard risk management practices sufficient."%string
              end).
  { intros o. unfold _generate_risk_summary. rewrite Hnames. cbn [obind].
    destruct (high_categories preds); reflexivity. }
  match type of Hval with _ = Returns ?r => exists r end.
  rewrite Hsummary. cbn [overall_level].
  destruct (high_categories preds) as [| c cs] eqn:Ehigh.
  - cbn [List.length] in Hcount.
    assert (Hh : h = 0) by lia.
    assert (E25 : Qleb (25 # 10) weighted = false).
    { destruct (Qleb (25 # 10) weighted) eqn:E; [| reflexivity].
      assert (m + 3 * l <= h) by (apply H25; reflexivity). lia. }
    rewrite E25. rewrite E25 in Hval.
    destruct (Qleb (15 # 10) weighted) eqn:E15; cbn [risk_level_eqb];
      eexists; (split; [exact Hval |]); (split; [reflexivity |]).
    + split; [intros Hpos; lia |].
      split; [reflexivity |].
      intros _ Hml. assert (l <= 3 * h + m) by (apply H15; reflexivity). lia.
    + split; [intros Hpos; lia |].
      split; [| reflexivity].
      intros _ Hlm. assert (Hle : l <= 3 * h + m) by lia.
      apply H15 in Hle. congruence.
  - cbn [List.length] in Hcount.
    eexists. split; [exact Hval |].
    split; [reflexivity |].
    split; [reflexivity |].
    split; intros Hh; lia.
Qed.

(** A set with two Medium and three Low entries through the theorem. *)
Lemma risk_summary_example :
  exists o s,
    _calculate_overall_risk
      [ ("Budget Overrun Risk", risk_with_level Medium);
        ("Timeline Delay Risk", risk_with_level Low);
        ("Technical Implementation Risk", risk_with_level Medium);
        ("Compliance Risk", risk_with_level Low);
        ("Resource Availability Risk", risk_with_level Low) ]%string
    = Returns o
    /\ _generate_risk_summary
         [ ("Budget Overrun Risk", risk_with_level Medium);
           ("Timeline Delay Risk", risk_with_level Low);
           ("Technical Implementation Risk", risk_with_level Medium);
           ("Compliance Risk", risk_with_level Low);
           ("Resource Availability Risk", risk_with_level Low) ]%string o
       = Returns s
    /\ s = "Low risk project profile. Standard risk management practices sufficient."%string.
Proof.
  destruct (risk_summary_cases
              [ ("Budget Overrun Risk", risk_with_level Medium);
                ("Timeline Delay Risk", risk_with_level Low);
                ("Technical Implementation Risk", risk_with_level Medium);
                ("Compliance Risk", risk_with_level Low);
                ("Resource Availability Risk", risk_with_level Low) ]%string
              [Medium; Low; Medium; Low; Low] eq_refl)
    as (o & s & Ho & Hs & _ & _ & Hlow).
  - discriminate.
  - exists o, s. split; [exact Ho |]. split; [exact Hs |].
    apply Hlow; reflexivity.
Defined.

End OverallRiskCases.

(* ================================================================== *)
(** ** The feature vector ([_extract_features]) *)
(* ================================================================== *)

Section Features.





End Features.

(* ================================================================== *)
(** ** From keyword coverage to risk and recommendations *)
(* ================================================================== *)

Section Coverage.

Ltac in_catalog :=
  cbn [map fst section_weights In];
  repeat first [left; reflexivity | right].

Lemma driver_facts (cat sec : string) (dflt : Z) (wt : Q) :
  In (cat, sec, dflt, wt) risk_drivers ->
  (4 # 10 <= wt <= 7 # 10)%Q /\ In sec (map fst section_weights).
Proof.
  intros H. unfold risk_drivers in H. cbn [In] in H.
  repeat (destruct H as [H | H];
          [injection H as _ <- _ <-;
           split; [split; unfold Qle; cbn; lia | cbn; tauto] |]).
  contradiction.
Qed.

Lemma clamp_upper (x b : Q) :
  (x <= b)%Q -> (15 <= b <= 85)%Q -> (15 <= Qmin 85 (Qmax 15 x) <= b)%Q.
Proof.
  intros Hx [Hb1 Hb2]. split; [apply clamp_15_85 |].
  apply Q.min_le_iff. right. apply Q.max_lub; assumption.
Qed.

Lemma clamp_saturates (x : Q) : (85 <= x)%Q -> (Qmin 85 (Qmax 15 x) == 85)%Q.
Proof.
  intros Hx. apply Q.min_l. apply Q.max_le_iff. right. exact Hx.
Qed.

Lemma weighted_sum_range_catalog (f : string -> Q) (lo hi : Q) :
  (forall n, In n (map fst section_weights) -> lo <= f n <= hi)%Q ->
  (lo <= weighted_sum f <= hi)%Q.
Proof.
  intros H.
  assert (H1 := H "Context/Background"%string ltac:(in_catalog)).
  assert (H2 := H "Problems Addressed"%string ltac:(in_catalog)).
  assert (H3 := H "Project Objectives"%string ltac:(in_catalog)).
  assert (H4 := H "Technology Issues"%string ltac:(in_catalog)).
  assert (H5 := H "Management Arrangements"%string ltac:(in_catalog)).
  assert (H6 := H "Means of Finance"%string ltac:(in_catalog)).
  assert (H7 := H "Time Frame"%string ltac:(in_catalog)).
  assert (H8 := H "Target Beneficiaries"%string ltac:(in_catalog)).
  assert (H9 := H "Legal Framework"%string ltac:(in_catalog)).
  assert (H10 := H "Risk Analysis"%string ltac:(in_catalog)).
  clear H.
  unfold weighted_sum, section_weights. cbn [map fold_right fst snd].
  repeat match goal with
         | |- context [(inject_Z ?w / 100)%Q] =>
             let v := eval vm_compute in (inject_Z w / 100)%Q in
             change (inject_Z w / 100)%Q with v
         end.
  split; lra.
Qed.

Lemma tier_score_covered (k : Z) : 2 <= k -> 66 <= tier_score k.
Proof.
  intros H. unfold tier_score.
  destruct (Z.leb_spec 5 k); destruct (Z.leb_spec 2 k); lia.
Qed.

(** With [np] bound, the keyword coverage of a text bounds its rule-based
    risk: when every catalogued section has at least two keyword
    occurrences the overall score is at least 66 and no category is High
    (every probability is at most 57.8); when every section has fewer than
    two, the overall score is 30 and every category is High with
    probability 85. *)
Theorem keyword_coverage_bounds_risk
    (rt : runtime) (text filename : string) (w : world) :
  np_bound rt = true ->
  exists r o,
    fst (analyze_dpr rt text filename w) = Returns r
    /\ overall_score r = Some o
    /\ ((forall n, In n (map fst section_weights) -> 2 <= keyword_count text n) ->
        (66 <= o)%Q
        /\ forall cat sec dflt wt,
            In (cat, sec, dflt, wt) risk_drivers ->
            (probability (_rule_based_risk cat r) <= 578 # 10)%Q
            /\ level (_rule_based_risk cat r) <> Some High)
    /\ ((forall n, In n (map fst section_weights) -> keyword_count text n < 2) ->
        (o == 30)%Q
        /\ forall cat sec dflt wt,
            In (cat, sec, dflt, wt) risk_drivers ->
            (probability (_rule_based_risk cat r) == 85)%Q
            /\ level (_rule_based_risk cat r) = Some High).
Proof.
  intros Hnp.
  destruct (analyze_dpr_normal_explicit rt text filename Hnp)
    as (total & Htotal & Hrun).
  eexists. exists (round1 total). rewrite (Hrun w). cbn [fst overall_score].
  split; [reflexivity |]. split; [reflexivity |].
  assert (Hdriver : forall sec dflt,
            In sec (map fst section_weights) ->
            section_score (analyzed_sections text) sec dflt
            = tier_score (keyword_count text sec)).
  { intros sec dflt Hsec. unfold section_score.
    rewrite (lookup_analyzed text sec Hsec), analyze_section_score.
    reflexivity. }
  split.
  - intros Hcov.
    assert (Hlow : (66 <= total <= 90)%Q).
    { rewrite Htotal. apply weighted_sum_range_catalog. intros n Hn.
      rewrite score_of_analyze_section.
      pose proof (tier_score_range (keyword_count text n)) as [_ U].
      pose proof (tier_score_covered _ (Hcov n Hn)) as L.
      change 66%Q with (inject_Z 66). change 90%Q with (inject_Z 90).
      rewrite <- !Zle_Qle. split; assumption. }
    assert (Ho : (66 <= round1 total <= 90)%Q)
      by (apply (round1_range 66 90); exact Hlow).
    split; [apply Ho |].
    intros cat sec dflt wt Hin.
    destruct (driver_facts cat sec dflt wt Hin) as [[Hw1 Hw2] Hsec].
    rewrite (rule_based_risk_unfold _ cat sec dflt wt Hin).
    cbv zeta. cbn [probability level overall_score section_analyses get].
    rewrite (Hdriver sec dflt Hsec).
    pose proof (tier_score_covered _ (Hcov sec Hsec)) as Hs.
    pose proof (tier_score_range (keyword_count text sec)) as [_ Hs90].
    set (d := inject_Z (tier_score (keyword_count text sec))).
    assert (Hd : (66 <= d <= 90)%Q).
    { unfold d. change 66%Q with (inject_Z 66). change 90%Q with (inject_Z 90).
      rewrite <- !Zle_Qle. lia. }
    set (x := (Qmax 0 (100 - round1 total) + (100 - d) * wt)%Q).
    assert (Hx : (x <= 578 # 10)%Q).
    { unfold x.
      assert (Hb : (Qmax 0 (100 - round1 total) <= 34)%Q)
        by (apply Q.max_lub; lra).
      assert (Hm : ((100 - d) * wt <= 34 * (7 # 10))%Q).
      { apply Qmult_le_compat_nonneg; split; lra. }
      lra. }
    destruct (clamp_upper x (578 # 10) Hx) as [Hc1 Hc2]; [split; lra |].
    split.
    + apply (round1_range_tenths 150 578). split; lra.
    + destruct (level_of_spec (Qmin 85 (Qmax 15 x))) as (_ & LM & LL).
      destruct (Qlt_le_dec (Qmin 85 (Qmax 15 x)) 40) as [Hlt | Hge].
      * rewrite (LL Hlt). discriminate.
      * rewrite LM by (split; lra). discriminate.
  - intros Hpoor.
    assert (Htot30 : (total == 30)%Q).
    { rewrite Htotal.
      transitivity (weighted_sum (fun _ => 30%Q));
        [| apply weighted_sum_uniform].
      unfold weighted_sum.
      apply (weighted_terms_ext (fun n => score_of (analyze_section text n))
                                (fun _ => 30%Q)).
      intros [n wt] Hin. cbn [fst]. rewrite score_of_analyze_section.
      apply (in_map fst) in Hin. cbn [fst] in Hin.
      destruct (tier_score_values (keyword_count text n)) as (Hl & _).
      destruct (Hl (Hpoor n Hin)) as [-> _]. reflexivity. }
    assert (Ho : (round1 total == 30)%Q).
    { rewrite (round1_comp total (inject_Z 30)) by exact Htot30.
      apply round1_Z. }
    split; [exact Ho |].
    intros cat sec dflt wt Hin.
    destruct (driver_facts cat sec dflt wt Hin) as [[Hw1 Hw2] Hsec].
    rewrite (rule_based_risk_unfold _ cat sec dflt wt Hin).
    cbv zeta. cbn [probability level overall_score section_analyses get].
    rewrite (Hdriver sec dflt Hsec).
    destruct (tier_score_values (keyword_count text sec)) as (Hl & _).
    destruct (Hl (Hpoor sec Hsec)) as [-> _].
    set (x := (Qmax 0 (100 - round1 total) + (100 - inject_Z 30) * wt)%Q).
    assert (Hx : (85 <= x)%Q).
    { unfold x.
      assert (Hb : (70 <= Qmax 0 (100 - round1 total))%Q)
        by (apply Q.max_le_iff; right; lra).
      change (inject_Z 30) with 30%Q. lra. }
    pose proof (clamp_saturates x Hx) as Hsat.
    split.
    + rewrite (round1_comp _ (inject_Z 85)) by exact Hsat. apply round1_Z.
    + destruct (level_of_spec (Qmin 85 (Qmax 15 x))) as (LH & _).
      rewrite LH by lra. reflexivity.
Qed.

(** The empty text through the theorem: overall score 30. *)
Lemma keyword_coverage_example :
  exists r o,
    fst (analyze_dpr nlp_runtime "" "empty.txt" sample_world) = Returns r
    /\ overall_score r = Some o /\ (o == 30)%Q
    /\ level (_rule_based_risk "Compliance Risk" r) = Some High.
Proof.
  destruct (keyword_coverage_bounds_risk nlp_runtime "" "empty.txt"
              sample_world eq_refl)
    as (r & o & Hr & Ho & _ & Hpoor).
  destruct Hpoor as [Ho30 Hcat].
  { intros n Hn. cbn [map fst section_weights In] in Hn.
    repeat (destruct Hn as [<- | Hn]; [vm_compute; reflexivity |]).
    contradiction. }
  exists r, o. split; [exact Hr |]. split; [exact Ho |].
  split; [exact Ho30 |].
  apply (Hcat "Compliance Risk" "Legal Framework" 80 (4 # 10))%string.
  cbn. tauto.
Defined.

End Coverage.

(* ================================================================== *)
(** ** Recommendations for an analysed text *)
(* ================================================================== *)

Section NormalRecommendations.

Lemma scored_sections_analyzed (text : string) (entries : list (string * Z)) :
  scored_sections
    (map (fun nw => (fst nw, analyze_section text (fst nw))) entries)
  = Returns (map (fun n => (n, tier_score (keyword_count text n)))
                 (map fst entries)).
Proof.
  induction entries as [| [name w] rest IH];
    cbn [map scored_sections fst]; [reflexivity |].
  rewrite analyze_section_score. cbn [getitem obind].
  rewrite IH. reflexivity.
Qed.

Lemma low_scores_are_poor (text : string) (names : list string) :
  filter (fun e : string * Z => snd e <? 65)
         (map (fun n => (n, tier_score (keyword_count text n))) names)
  = map (fun n => (n, 30))
        (filter (fun n => keyword_count text n <? 2) names).
Proof.
  induction names as [| n rest IH]; cbn [map filter snd]; [reflexivity |].
  rewrite IH.
  destruct (tier_score_values (keyword_count text n)) as (Hlow & _).
  destruct (Z.ltb_spec (keyword_count text n) 2) as [Hk | Hk].
  - destruct (Hlow Hk) as [-> _]. reflexivity.
  - pose proof (tier_score_covered _ Hk).
    destruct (Z.ltb_spec (tier_score (keyword_count text n)) 65);
      [lia | reflexivity].
Qed.

(** Sorting leaves a list of equal keys as it is. *)
Lemma sort_by_equal_keys {A} (key : A -> Z) (c : Z) (l : list A) :
  Forall (fun x => key x = c) l -> sort_by key l = l.
Proof.
  induction 1 as [| x l Hx Hl IH]; [reflexivity |].
  cbn [sort_by fold_right]. fold (sort_by key l). rewrite IH.
  destruct l as [| y l']; [reflexivity |].
  cbn [insert_by]. apply Forall_inv in Hl.
  rewrite Hx, Hl, Z.ltb_irrefl. reflexivity.
Qed.

(** With [np] bound, the recommendations for the record of any text are:
    a High-priority entry for each of the first three catalogued sections
    that have fewer than two keyword occurrences, in catalog order (no
    section recommendation is ever Medium, since a section scores 30 or at
    least 66); then the Overall Quality entry when the overall score is
    below 70; then the Technical Feasibility entry when Technology Issues
    has fewer than three keyword occurrences. *)
Theorem recommendations_for_analysed_text
    (rt : runtime) (text filename : string) (w : world) :
  np_bound rt = true ->
  exists r o,
    fst (analyze_dpr rt text filename w) = Returns r
    /\ overall_score r = Some o
    /\ generate_recommendations r
       = Returns
           (map urgent_recommendation (firstn 3 (poor_sections text))
            ++ (if Qltb o 70 then [overall_quality_recommendation] else [])
            ++ (if keyword_count text "Technology Issues" <? 3
                then [technical_recommendation] else [])).
Proof.
  intros Hnp.
  destruct (analyze_dpr_normal_explicit rt text filename Hnp)
    as (total & _ & Hrun).
  eexists. exists (round1 total). rewrite (Hrun w). cbn [fst overall_score].
  split; [reflexivity |]. split; [reflexivity |].
  unfold generate_recommendations. cbn [section_analyses overall_score get].
  unfold analyzed_sections at 1. rewrite scored_sections_analyzed.
  cbn [obind]. rewrite low_scores_are_poor. fold (poor_sections text).
  rewrite (sort_by_equal_keys snd 30)
    by (apply Forall_forall; intros e He; apply in_map_iff in He;
        destruct He as (n & <- & _); reflexivity).
  rewrite <- firstn_map, map_map.
  assert (Hmap : map (fun n => section_recommendation (n, 30)) (poor_sections text)
                 = map urgent_recommendation (poor_sections text))
    by (apply map_ext; intros n; reflexivity).
  rewrite Hmap, firstn_map.
  rewrite (lookup_analyzed text "Technology Issues")
    by (cbn [map fst section_weights In];
        repeat first [left; reflexivity | right]).
  rewrite analyze_section_score. cbn [get].
  assert (Htech : (tier_score (keyword_count text "Technology Issues") <? 70)
                  = (keyword_count text "Technology Issues" <? 3)).
  { destruct (tier_score_values (keyword_count text "Technology Issues"))
      as (Hlow & H2 & H3 & H4 & Hhigh).
    destruct (Z.ltb_spec (keyword_count text "Technology Issues") 3) as [Hk | Hk].
    - apply Z.ltb_lt.
      destruct (Z.lt_ge_cases (keyword_count text "Technology Issues") 2)
        as [Hk2 | Hk2].
      + destruct (Hlow Hk2) as [-> _]. lia.
      + assert (E : keyword_count text "Technology Issues" = 2) by lia.
        destruct (H2 E) as [-> _]. lia.
    - apply Z.ltb_ge.
      destruct (Z.lt_ge_cases (keyword_count text "Technology Issues") 5)
        as [Hk5 | Hk5].
      + assert (E : keyword_count text "Technology Issues" = 3
                    \/ keyword_count text "Technology Issues" = 4) by lia.
        destruct E as [E | E];
          [destruct (H3 E) as [-> _] | destruct (H4 E) as [-> _]]; lia.
      + destruct (Hhigh Hk5) as (Hs & _). lia. }
  rewrite Htech.
  set (recs := map urgent_recommendation (firstn 3 (poor_sections text))).
  assert (Hlen : (List.length recs <= 3)%nat).
  { unfold recs. rewrite length_map. apply firstn_le_length. }
  f_equal.
  destruct (Qltb (round1 total) 70);
    destruct (keyword_count text "Technology Issues" <? 3);
    rewrite <- ?app_assoc, ?app_nil_r;
    apply firstn_all2; rewrite ?length_app; cbn [List.length]; lia.
Qed.

(** A text that covers only the finance section through the theorem. *)
Lemma recommendations_example :
  exists r recs,
    fst (analyze_dpr nlp_runtime "budget and cost" "b.txt" sample_world)
    = Returns r
    /\ generate_recommendations r = Returns recs
    /\ map category recs
       = [ "Context/Background"; "Problems Addressed"; "Project Objectives";
           "Overall Quality"; "Technical Feasibility" ]%string.
Proof.
  destruct (recommendations_for_analysed_text nlp_runtime "budget and cost"
              "b.txt" sample_world eq_refl)
    as (r & o & Hr & Ho & Hrecs).
  exists r. eexists. split; [exact Hr |]. split; [exact Hrecs |].
  assert (Hv : fst (analyze_dpr nlp_runtime "budget and cost" "b.txt"
                      sample_world) = Returns r) by exact Hr.
  vm_compute in Hv. injection Hv as <-.
  cbn [overall_score] in Ho. injection Ho as <-.
  vm_compute. reflexivity.
Defined.

(** The fallback analysis on a short text, in the sample world that keeps
    drawing 30. *)
Lemma fallback_analysis_example :
  exists r sections,
    fst (generate_fallback_analysis nlp_runtime "f.pdf" "a short text"
           sample_world) = Returns r
    /\ overall_score r = Some 45%Q
    /\ section_analyses r = Some sections
    /\ Forall (fun e => fallback_section 45 (snd e)) sections.
Proof.
  destruct (fallback_analysis_shape nlp_runtime "f.pdf" "a short text"
              sample_world eq_refl)
    as (r & sections & Hr & Ho & _ & _ & _ & Hs & Hall).
  exists r, sections. split; [exact Hr |]. split; [exact Ho |].
  split; [exact Hs | exact Hall].
Defined.

End NormalRecommendations.

(* ================================================================== *)
(** ** Accepted file names ([allowed_file]) *)
(* ================================================================== *)

Section AllowedFiles.

Import App.

Lemma split_last_none (sep : ascii) (s : string) :
  contains sep s = false -> split_last sep s = None.
Proof.
  induction s as [| c s IH]; cbn [contains split_last]; [reflexivity |].
  intros H. apply orb_false_iff in H. destruct H as [Hc Hs].
  rewrite (IH Hs), Hc. reflexivity.
Qed.

Lemma split_last_some (sep : ascii) (s : string) :
  contains sep s = true -> exists before after, split_last sep s = Some (before, after).
Proof.
  induction s as [| c s IH]; cbn [contains split_last]; [discriminate |].
  intros H. destruct (split_last sep s) as [[b a] |] eqn:E.
  - eexists. eexists. reflexivity.
  - destruct (Ascii.eqb c sep) eqn:Ec; [eexists; eexists; reflexivity |].
    cbn [orb] in H. destruct (IH H) as (b & a & Hba). discriminate.
Qed.

(** The last separator is the one in front of a separator-free suffix. *)
Lemma split_last_app (sep : ascii) (stem ext : string) :
  contains sep ext = false ->
  split_last sep (stem ++ String sep ext) = Some (stem, ext).
Proof.
  intros Hext. induction stem as [| c stem IH]; cbn [append split_last].
  - rewrite (split_last_none sep ext Hext), Ascii.eqb_refl. reflexivity.
  - rewrite IH. reflexivity.
Qed.

Lemma lower_ascii_dot (c : ascii) :
  Ascii.eqb (lower_ascii c) "." = Ascii.eqb c ".".
Proof.
  destruct c as [[] [] [] [] [] [] [] []]; reflexivity.
Qed.

Lemma contains_dot_lower (s : string) :
  contains "." (lower s) = contains "." s.
Proof.
  induction s as [| c s IH]; cbn [lower contains]; [reflexivity |].
  rewrite lower_ascii_dot, IH. reflexivity.
Qed.

(** [allowed_file] never fails on the index [[1]]; it refuses every name
    without a dot; and for a name [stem.ext] whose [ext] has no dot it
    accepts exactly when [ext], lower-cased, is one of pdf, txt, doc and
    docx, whatever the stem (which may be empty or contain dots) and
    whatever the case of [ext]. *)
Theorem allowed_file_by_extension :
  (forall filename, exists b, allowed_file filename = Some b)
  /\ (forall filename,
        contains "." filename = false -> allowed_file filename = Some false)
  /\ (forall stem ext,
        contains "." ext = false ->
        allowed_file (stem ++ "." ++ ext)
        = Some (existsb (String.eqb (lower ext)) ALLOWED_EXTENSIONS)
        /\ allowed_file (stem ++ "." ++ lower ext)
           = allowed_file (stem ++ "." ++ ext)
        /\ (allowed_file (stem ++ "." ++ ext) = Some true
            <-> In (lower ext) ["pdf"; "txt"; "doc"; "docx"]%string)).
Proof.
  split.
  { intros filename. unfold allowed_file.
    destruct (contains "." filename) eqn:E; [| eexists; reflexivity].
    destruct (split_last_some "." filename E) as (b & a & Hs).
    unfold rsplit1. rewrite Hs. cbn [nth_error]. eexists. reflexivity. }
  split.
  { intros filename H. unfold allowed_file. rewrite H. reflexivity. }
  intros stem ext Hext.
  assert (Hgen : forall e, contains "." e = false ->
            allowed_file (stem ++ "." ++ e)
            = Some (existsb (String.eqb (lower e)) ALLOWED_EXTENSIONS)).
  { intros e He. unfold allowed_file.
    change ("." ++ e)%string with (String "." e).
    assert (Hc : contains "." (stem ++ String "." e) = true).
    { clear. induction stem as [| c stem IH]; cbn [append contains].
      - reflexivity.
      - rewrite IH. apply orb_true_r. }
    rewrite Hc. unfold rsplit1. rewrite (split_last_app "." stem e He).
    reflexivity. }
  split; [apply Hgen; exact Hext |].
  split.
  { rewrite (Hgen ext Hext), Hgen
      by (rewrite contains_dot_lower; exact Hext).
    rewrite lower_idem. reflexivity. }
  rewrite (Hgen ext Hext). unfold ALLOWED_EXTENSIONS. split.
  - intros H. injection H as H. cbn [existsb] in H.
    rewrite !orb_true_iff, !String.eqb_eq in H. cbn [In].
    destruct H as [H | [H | [H | [H | H]]]];
      [symmetry in H; tauto .. | discriminate H].
  - intros H. f_equal. cbn [In] in H. cbn [existsb].
    destruct H as [<- | [<- | [<- | [<- | []]]]]; reflexivity.
Qed.

Example allowed_file_examples :
  allowed_file "report.PDF" = Some true
  /\ allowed_file "archive.pdf.exe" = Some false
  /\ allowed_file "notes.v1.Docx" = Some true
  /\ allowed_file "pdf" = Some false
  /\ allowed_file "report." = Some false
  /\ allowed_file ".txt" = Some true.
Proof. vm_compute. repeat split. Qed.

End AllowedFiles.

(* ================================================================== *)
(** ** Text extraction ([extract_text]) *)
(* ================================================================== *)

Section TextExtraction.

Import PDFProcessor.

Lemma rstrip_cons (c : ascii) (s : string) :
  rstrip (String c s)
  = match rstrip s with
    | EmptyString => if isspace c then EmptyString else String c EmptyString
    | rest => String c rest
    end.
Proof. reflexivity. Qed.

Lemma rstrip_idem (s : string) : rstrip (rstrip s) = rstrip s.
Proof.
  induction s as [| c s IH]; [reflexivity |].
  rewrite (rstrip_cons c s). destruct (rstrip s) as [| c' r] eqn:E.
  - destruct (isspace c) eqn:Ec; [reflexivity |].
    rewrite rstrip_cons. cbn [rstrip]. rewrite Ec. reflexivity.
  - rewrite (rstrip_cons c (String c' r)), IH. reflexivity.
Qed.

Lemma rstrip_head (c c' : ascii) (s r : string) :
  rstrip (String c s) = String c' r -> c' = c.
Proof.
  cbn [rstrip]. destruct (rstrip s); [destruct (isspace c) |];
    intros H; [discriminate | |]; injection H as <- _; reflexivity.
Qed.

Lemma lstrip_head (s : string) (c : ascii) (r : string) :
  lstrip s = String c r -> isspace c = false.
Proof.
  induction s as [| x s IH]; cbn [lstrip]; [discriminate |].
  destruct (isspace x) eqn:Ex; [exact IH |].
  intros H. injection H as <- _. exact Ex.
Qed.

Lemma strip_head (s : string) (c : ascii) (r : string) :
  strip s = String c r -> isspace c = false.
Proof.
  unfold strip. destruct (lstrip s) as [| c0 s0] eqn:E; [discriminate |].
  intros H. apply rstrip_head in H. subst c.
  apply (lstrip_head s c0 s0 E).
Qed.

Lemma strip_idem (s : string) : strip (strip s) = strip s.
Proof.
  destruct (strip s) as [| c r] eqn:E; [reflexivity |].
  pose proof (strip_head s c r E) as Hc.
  unfold strip at 1. cbn [lstrip]. rewrite Hc.
  rewrite <- E. unfold strip. apply rstrip_idem.
Qed.

Lemma stripped_is_extracted (text : string) :
  extracted (if nonempty (strip text) then strip text else _get_sample_text).
Proof.
  destruct (strip text) as [| c r] eqn:E; cbn [nonempty].
  - left. reflexivity.
  - right. split; [discriminate |]. rewrite <- E. apply strip_idem.
Qed.

Lemma sample_is_extracted : extracted _get_sample_text.
Proof. left. reflexivity. Qed.

Lemma extract_from_pdf_extracted (libs : libraries) (doc : document) :
  extracted (_extract_from_pdf libs doc).
Proof.
  unfold _extract_from_pdf.
  assert (Hsecond : forall text,
            extracted
              (let '(text, found) :=
                 if PDF_AVAILABLE libs then
                   match pypdf_pages doc with
                   | Done pages =>
                       let '(text, raised) := pypdf_loop pages text in
                       if raised then (text, None)
                       else if nonempty (strip text)
                            then (text, Some (strip text))
                            else (text, None)
                   | Failed => (text, None)
                   end
                 else (text, None) in
               match found with
               | Some result => result
               | None => _get_sample_text
               end)).
  { intros text. destruct (PDF_AVAILABLE libs); [| apply sample_is_extracted].
    destruct (pypdf_pages doc) as [pages |]; [| apply sample_is_extracted].
    destruct (pypdf_loop pages text) as [t raised].
    destruct raised; [apply sample_is_extracted |].
    pose proof (stripped_is_extracted t) as H.
    destruct (nonempty (strip t)); [exact H | apply sample_is_extracted]. }
  destruct (PDFPLUMBER_AVAILABLE libs); [| apply Hsecond].
  destruct (plumber_pages doc) as [pages |]; [| apply Hsecond].
  destruct (plumber_loop pages EmptyString) as [t raised].
  destruct raised; [apply Hsecond |].
  pose proof (stripped_is_extracted t) as H.
  destruct (nonempty (strip t)); [exact H | apply Hsecond].
Qed.

Lemma extracted_has_words (t : string) : extracted t -> 0 < len_split t.
Proof.
  intros [-> | [Hne Hstrip]].
  - vm_compute. reflexivity.
  - destruct t as [| c r]; [contradiction |].
    pose proof (strip_head _ c r Hstrip) as Hc.
    unfold len_split. cbn [count_words]. rewrite Hc.
    pose proof (count_words_nonneg r true). lia.
Qed.

Lemma extract_text_extracted (libs : libraries) (doc : document) :
  extracted (extract_text libs doc).
Proof.
  unfold extract_text.
  destruct (path_exists doc); cbn [negb]; [| apply sample_is_extracted].
  destruct (String.eqb (file_ext doc) ".pdf");
    [apply extract_from_pdf_extracted |].
  destruct (String.eqb (file_ext doc) ".docx" || String.eqb (file_ext doc) ".doc").
  - unfold _extract_from_docx.
    destruct (DOCX_AVAILABLE libs); cbn [negb]; [| apply sample_is_extracted].
    destruct (docx_content doc) as [[paragraphs tables] |];
      [apply stripped_is_extracted | apply sample_is_extracted].
  - destruct (String.eqb (file_ext doc) ".txt"); [| apply sample_is_extracted].
    unfold _extract_from_txt.
    destruct (utf8_read doc);
      [apply stripped_is_extracted | | apply sample_is_extracted].
    destruct (latin1_read doc);
      [apply stripped_is_extracted | apply sample_is_extracted].
Qed.

(** [extract_text] returns, for every file and every behaviour of the
    libraries, either the sample document or a non-empty text without
    leading or trailing white space; so the text always has at least one
    word. It is the sample document when the path does not exist and when
    the extension is none of .pdf, .docx, .doc and .txt. *)
Theorem extract_text_is_never_blank (libs : libraries) (doc : document) :
  extracted (extract_text libs doc)
  /\ 0 < len_split (extract_text libs doc)
  /\ (path_exists doc = false -> extract_text libs doc = _get_sample_text)
  /\ (~ In (file_ext doc) [".pdf"; ".docx"; ".doc"; ".txt"]%string ->
      extract_text libs doc = _get_sample_text).
Proof.
  pose proof (extract_text_extracted libs doc) as H.
  split; [exact H |].
  split; [apply extracted_has_words; exact H |].
  split.
  { intros He. unfold extract_text. rewrite He. reflexivity. }
  intros Hext. unfold extract_text.
  destruct (path_exists doc); cbn [negb]; [| reflexivity].
  cbn [In] in Hext.
  destruct (String.eqb_spec (file_ext doc) ".pdf") as [E | _];
    [exfalso; apply Hext; rewrite E;
     repeat first [left; reflexivity | right] |].
  destruct (String.eqb_spec (file_ext doc) ".docx") as [E | _];
    [exfalso; apply Hext; rewrite E;
     repeat first [left; reflexivity | right] |].
  destruct (String.eqb_spec (file_ext doc) ".doc") as [E | _];
    [exfalso; apply Hext; rewrite E;
     repeat first [left; reflexivity | right] |].
  destruct (String.eqb_spec (file_ext doc) ".txt") as [E | _];
    [exfalso; apply Hext; rewrite E;
     repeat first [left; reflexivity | right] |].
  reflexivity.
Qed.

(** When pdfplumber raises after a page, PyPDF2 appends its pages to the
    text pdfplumber had gathered, so that page comes out twice. *)
Example extract_text_repeats_a_page :
  extract_text all_libraries half_read_pdf
  = ("Budget page" ++ newline ++ "Budget page" ++ newline ++ "Risk page")%string.
Proof. vm_compute. reflexivity. Qed.

(** With [np] bound, whatever file is uploaded and however the libraries
    behave, the analysis of the extracted text returns a record with at
    least one word, and the recommendations computed from it are at most
    five. *)
Theorem extracted_text_is_analysed
    (libs : libraries) (doc : document)
    (rt : runtime) (filename : string) (w : world) :
  np_bound rt = true ->
  exists r stats recs,
    fst (analyze_dpr rt (extract_text libs doc) filename w) = Returns r
    /\ document_stats r = Some stats
    /\ 1 <= word_count stats
    /\ generate_recommendations r = Returns recs
    /\ (List.length recs <= 5)%nat.
Proof.
  intros Hnp.
  destruct (analyze_dpr_normal_explicit rt (extract_text libs doc) filename Hnp)
    as (total & _ & Hrun).
  pose proof (extracted_has_words _ (extract_text_extracted libs doc))
    as Hwords.
  pose proof (Hrun w) as Hw.
  match type of Hw with
  | _ = (Returns ?record, _) =>
      assert (Hrecs : exists recs,
                generate_recommendations record = Returns recs
                /\ (List.length recs <= 5)%nat);
      [| destruct Hrecs as (recs & Hrecs & Hlen); exists record ]
  end.
  { unfold generate_recommendations. cbn [section_analyses overall_score get].
    unfold analyzed_sections at 1. rewrite scored_sections_analyzed.
    cbn [obind]. eexists. split; [reflexivity | apply firstn_le_length]. }
  eexists. exists recs. rewrite Hw. cbn [fst document_stats].
  split; [reflexivity |]. split; [reflexivity |].
  cbn [word_count]. split; [lia |].
  split; [exact Hrecs | exact Hlen].
Qed.

(** The half-read PDF through the theorem. *)
Lemma extracted_text_example :
  exists r stats,
    fst (analyze_dpr nlp_runtime (extract_text all_libraries half_read_pdf)
           "x.pdf" sample_world) = Returns r
    /\ document_stats r = Some stats
    /\ 1 <= word_count stats.
Proof.
  destruct (extracted_text_is_analysed all_libraries half_read_pdf nlp_runtime
              "x.pdf" sample_world eq_refl)
    as (r & stats & recs & Hr & Hs & Hw & _).
  exists r, stats. split; [exact Hr |]. split; [exact Hs | exact Hw].
Defined.

End TextExtraction.
